(** * GestureAI backend: schemas, serialization and request handlers

    A shallow embedding of [schemas.py] and [main.py].

    - Python objects that travel through the handlers ([Dict[str, Any]]
      records read from the document store) are values of [value]; a record
      is a finite map from field names to values.
    - The pydantic models of [schemas.py] are records, and validation of a
      request body against a model is a function returning either the list
      of field errors or the normalized model.
    - The handlers of [main.py] run in a state-and-exception monad over the
      document store.  The [database] module is not part of the sources: its
      two functions are parameters of the handlers, and every call to them is
      recorded in a call log.
    - Around the handlers, the framework validates the request before the
      handler is entered and encodes what is sent; an answer that cannot be
      encoded as JSON is replaced by a plain 500. *)

From Stdlib Require Import ZArith Floats Ascii String.
From stdpp Require Import gmap strings list fin_maps pretty.

Set Warnings "-register-all".

Open Scope string_scope.
Open Scope Z_scope.

(** ** Python values *)

Module Py.

(** A naive [datetime.datetime] (the store returns them without tzinfo). *)
Record datetime : Type := mkDatetime {
  year : N; month : N; day : N;
  hour : N; minute : N; second : N; microsecond : N
}.

(** The objects a stored record can hold.  [VObjectId] carries the 24-digit
    hexadecimal text of a [bson.ObjectId]. *)
Inductive value : Type :=
  | VNone
  | VBool (b : bool)
  | VInt (n : Z)
  | VFloat (f : float)
  | VStr (s : string)
  | VObjectId (hex : string)
  | VDatetime (d : datetime)
  | VDict (m : gmap string value)
  | VList (l : list value).

Fixpoint zeros (k : nat) : string :=
  match k with
  | O => ""
  | S k' => "0" +:+ zeros k'
  end.

(** ["%0wd" % n] *)
Definition zfill (w : nat) (n : N) : string :=
  let s := pretty n in zeros (w - String.length s) +:+ s.

(** [datetime.isoformat(sep)] of a naive datetime: the fraction is printed
    only when the microsecond field is not zero. *)
Definition isoformat_sep (sep : string) (d : datetime) : string :=
  zfill 4 (year d) +:+ "-" +:+ zfill 2 (month d) +:+ "-" +:+ zfill 2 (day d)
  +:+ sep
  +:+ zfill 2 (hour d) +:+ ":" +:+ zfill 2 (minute d) +:+ ":" +:+ zfill 2 (second d)
  +:+ (if (microsecond d =? 0)%N then "" else "." +:+ zfill 6 (microsecond d)).

Definition isoformat (d : datetime) : string := isoformat_sep "T" d.

(** [hasattr(v, "isoformat")] *)
Definition has_isoformat (v : value) : bool :=
  match v with
  | VDatetime _ => true
  | _ => false
  end.

(** [bool(v)]: the truth value Python's [or] tests. *)
Definition truthy (v : value) : bool :=
  match v with
  | VNone => false
  | VBool b => b
  | VInt n => negb (n =? 0)
  | VFloat f => negb (PrimFloat.eqb f 0)
  | VStr s => negb (String.eqb s "")
  | VObjectId _ => true
  | VDatetime _ => true
  | VDict m => negb (Nat.eqb (size m) 0)
  | VList l => negb (Nat.eqb (length l) 0)
  end.

(** [a or b] *)
Definition or_ (a b : value) : value := if truthy a then a else b.

(** [d.get(k, dflt)] *)
Definition get (d : gmap string value) (k : string) (dflt : value) : value :=
  match d !! k with
  | Some v => v
  | None => dflt
  end.

(** What FastAPI can send as JSON: [jsonable_encoder] turns a date/time
    into its ISO text and has no encoder for an [ObjectId], and the JSON
    response refuses a float that is not finite ([allow_nan=False]); dicts
    and lists are encoded value by value. *)
Fixpoint json_compliant (v : value) : bool :=
  match v with
  | VNone | VBool _ | VInt _ | VStr _ | VDatetime _ => true
  | VFloat f => PrimFloat.is_finite f
  | VObjectId _ => false
  | VDict m => map_fold (fun _ x acc => json_compliant x && acc) true m
  | VList l => forallb json_compliant l
  end.

Section Str.
(** [repr] of a float, a dict or a list: Python's shortest round-trip
    float printing and container printing are not reproduced here. *)
Variable repr : value -> string.

(** [str(v)], which is also what an f-string field [{v}] prints. *)
Definition str (v : value) : string :=
  match v with
  | VNone => "None"
  | VBool true => "True"
  | VBool false => "False"
  | VInt n => pretty n
  | VStr s => s
  | VObjectId hex => hex
  | VDatetime d => isoformat_sep " " d
  | VFloat _ | VDict _ | VList _ => repr v
  end.
End Str.

End Py.

Import Py.

(** A record of the document store, [Dict[str, Any]]. *)
Abbreviation document := (gmap string value).

(** ** main.py: serialize_doc *)

Section Serialize.
Variable repr : value -> string.

(** One turn of the loop of [serialize_doc] on the item [(k, v)]:
    [if hasattr(v, "isoformat"): out[k] = v.isoformat()]. *)
Definition serialize_step (out : document) (kv : string * value) : document :=
  match kv.2 with
  | VDatetime d => <[kv.1 := VStr (isoformat d)]> out
  | _ => out
  end.

(** [serialize_doc]: copy the record, move ["_id"] to a text ["id"], then
    loop over a snapshot of the items. *)
Definition serialize_doc (doc : document) : document :=
  let out := doc in
  let out :=
    match out !! "_id" with
    | Some oid => <["id" := VStr (str repr oid)]> (delete "_id" out)
    | None => out
    end in
  foldl serialize_step out (map_to_list out).
End Serialize.

(** What the loop of [serialize_doc] does to one value. *)
Definition iso_value (v : value) : value :=
  match v with
  | VDatetime d => VStr (isoformat d)
  | _ => v
  end.

(** No field of the record holds a date/time value. *)
Definition no_datetime (d : document) : Prop :=
  map_Forall (fun _ v => has_isoformat v = false) d.

#[global] Instance no_datetime_dec (d : document) : Decision (no_datetime d).
Proof. unfold no_datetime. apply _. Defined.

(** ** schemas.py *)

Module Schema.

(** One field of a request body as the validator meets it: the key is
    absent, it holds [null], it holds a value [input] that is not of the
    declared type, or it holds a value of the declared type (a text for
    [str], a JSON number for [float], an object for [Dict]).  The conversions
    pydantic makes in lax mode from another type (a numeric text or a boolean
    offered as a float) are not modelled: such a field is a [WrongType]
    here. *)
Inductive raw (A : Type) : Type :=
  | Missing
  | Null
  | WrongType (input : value)
  | Given (a : A).
Arguments Missing {A}.
Arguments Null {A}.
Arguments WrongType {A} input.
Arguments Given {A} a.

Inductive error_kind : Type :=
  | missing
  | wrong_type
  | greater_than_equal
  | less_than_equal.

(** A validation error: the field it is about and what failed. *)
Record field_error : Type := mkError { loc : string; kind : error_kind }.

(** Validation result: every failed field, or the validated value. *)
Definition validated (A : Type) : Type := list field_error + A.

(** Errors of all fields are collected, left to right. *)
Definition vapp {A B} (f : validated (A -> B)) (x : validated A) : validated B :=
  match f, x with
  | inr g, inr a => inr (g a)
  | inl e1, inl e2 => inl (e1 ++ e2)%list
  | inl e1, inr _ => inl e1
  | inr _, inl e2 => inl e2
  end.
Infix "<*>" := vapp (at level 61, left associativity).

(** [T = Field(...)]: required, and [None] is not a [T]. *)
Definition required {A} (loc : string) (x : raw A) : validated A :=
  match x with
  | Missing => inl [mkError loc missing]
  | Null | WrongType _ => inl [mkError loc wrong_type]
  | Given a => inr a
  end.

(** [Optional[T] = Field(dflt)]: the default when the key is absent,
    [None] when it holds [null]. *)
Definition optional {A} (loc : string) (dflt : option A) (x : raw A)
  : validated (option A) :=
  match x with
  | Missing => inr dflt
  | Null => inr None
  | WrongType _ => inl [mkError loc wrong_type]
  | Given a => inr (Some a)
  end.

(** [Optional[float] = Field(dflt, ge=lo, le=hi)]: the bounds are checked
    on a given number, [le] first. *)
Definition optional_bounded (loc : string) (dflt : option float) (lo hi : float)
    (x : raw float) : validated (option float) :=
  match x with
  | Missing => inr dflt
  | Null => inr None
  | WrongType _ => inl [mkError loc wrong_type]
  | Given f =>
      if negb (PrimFloat.leb f hi) then inl [mkError loc less_than_equal]
      else if negb (PrimFloat.leb lo f) then inl [mkError loc greater_than_equal]
      else inr (Some f)
  end.

(** The float written [0.7] in the source. *)
Definition f0_7 : float := 0x1.6666666666666p-1%float.

(** [class Gesture(BaseModel)] *)
Record Gesture : Type := mkGesture {
  g_name : string;
  g_intent : string;
  g_app : option string;
  g_sensitivity : option float;
  g_metadata : option document
}.

(** A request body offered as a [Gesture]: the five keys of the model, and
    the other keys of the body, which validation ignores. *)
Record GestureBody : Type := mkGestureBody {
  b_name : raw string;
  b_intent : raw string;
  b_app : raw string;
  b_sensitivity : raw float;
  b_metadata : raw document;
  b_others : document
}.

Definition validate_Gesture (b : GestureBody) : validated Gesture :=
  inr mkGesture
    <*> required "name" (b_name b)
    <*> required "intent" (b_intent b)
    <*> optional "app" None (b_app b)
    <*> optional_bounded "sensitivity" (Some f0_7) 0 1 (b_sensitivity b)
    <*> optional "metadata" (Some ∅) (b_metadata b).

(** [class VoiceCommand(BaseModel)] *)
Record VoiceCommand : Type := mkVoiceCommand {
  v_phrase : string;
  v_intent : string;
  v_language : option string;
  v_app : option string;
  v_context : option document
}.

Record VoiceCommandBody : Type := mkVoiceCommandBody {
  c_phrase : raw string;
  c_intent : raw string;
  c_language : raw string;
  c_app : raw string;
  c_context : raw document;
  c_others : document
}.

Definition validate_VoiceCommand (b : VoiceCommandBody) : validated VoiceCommand :=
  inr mkVoiceCommand
    <*> required "phrase" (c_phrase b)
    <*> required "intent" (c_intent b)
    <*> optional "language" (Some "en") (c_language b)
    <*> optional "app" None (c_app b)
    <*> optional "context" (Some ∅) (c_context b).

(** [class Workflow(BaseModel)] *)
Record Workflow : Type := mkWorkflow {
  w_name : string;
  w_steps : list document;
  w_trigger : option string
}.

Record WorkflowBody : Type := mkWorkflowBody {
  k_name : raw string;
  k_steps : raw (list document);
  k_trigger : raw string
}.

Definition validate_Workflow (b : WorkflowBody) : validated Workflow :=
  inr mkWorkflow
    <*> required "name" (k_name b)
    <*> required "steps" (k_steps b)
    <*> optional "trigger" None (k_trigger b).

(** *** The input a validation error repeats *)

(** The JSON value a field holds, when the key is there. *)
Definition raw_input {A} (inj : A -> value) (x : raw A) : option value :=
  match x with
  | Missing => None
  | Null => Some VNone
  | WrongType input => Some input
  | Given a => Some (inj a)
  end.

Definition with_field (k : string) (x : option value) (m : document) : document :=
  match x with
  | Some v => <[k := v]> m
  | None => delete k m
  end.

(** The body as parsed from JSON. *)
Definition gesture_json (b : GestureBody) : document :=
  with_field "name" (raw_input VStr (b_name b)) (
  with_field "intent" (raw_input VStr (b_intent b)) (
  with_field "app" (raw_input VStr (b_app b)) (
  with_field "sensitivity" (raw_input VFloat (b_sensitivity b)) (
  with_field "metadata" (raw_input VDict (b_metadata b)) (b_others b))))).

Definition voice_json (b : VoiceCommandBody) : document :=
  with_field "phrase" (raw_input VStr (c_phrase b)) (
  with_field "intent" (raw_input VStr (c_intent b)) (
  with_field "language" (raw_input VStr (c_language b)) (
  with_field "app" (raw_input VStr (c_app b)) (
  with_field "context" (raw_input VDict (c_context b)) (c_others b))))).

(** The [input] of a validation error on the body [json]: the whole body
    for a missing field, the value of the field otherwise. *)
Definition error_input (json : document) (err : field_error) : value :=
  match kind err with
  | missing => VDict json
  | _ => get json (loc err) VNone
  end.

(** The answer to a failed validation lists each error with its input, and
    can be sent when every input listed is JSON compliant. *)
Definition errors_encode (json : document) (errors : list field_error) : bool :=
  forallb (fun err => json_compliant (error_input json err)) errors.

(** The collection of a model is the lowercase of its class name. *)
Definition lower_ascii (c : ascii) : ascii :=
  let n := nat_of_ascii c in
  if (Nat.leb 65 n && Nat.leb n 90)%bool then ascii_of_nat (n + 32) else c.

Fixpoint lower (s : string) : string :=
  match s with
  | EmptyString => EmptyString
  | String c s' => String (lower_ascii c) (lower s')
  end.

End Schema.

Import Schema.

(** ** main.py: the handlers *)

(** Exceptions the handlers see: whatever the storage calls raise, with its
    message, and FastAPI's [HTTPException]. *)
Inductive exn : Type :=
  | Exception (message : string)
  | HTTPException (status_code : Z) (detail : string).

(** [str(e)] *)
Definition exn_str (e : exn) : string :=
  match e with
  | Exception message => message
  | HTTPException status_code detail => pretty status_code +:+ ": " +:+ detail
  end.

(** The [data] argument of [create_document]. *)
Inductive model : Type :=
  | MGesture (gesture : Gesture)
  | MVoiceCommand (cmd : VoiceCommand).

(** A call to the [database] module. *)
Inductive call : Type :=
  | CreateDocument (collection_name : string) (data : model)
  | GetDocuments (collection_name : string) (limit : option Z).

(** [{"title": ..., "category": ...}] *)
Record suggestion : Type := mkSuggestion { title : string; category : value }.

(** What a handler returns. *)
Inductive content : Type :=
  | Created (id : string) (ok : bool)
  | Documents (docs : list document)
  | Suggestions (items : list suggestion).

Inductive body : Type :=
  | JSON (c : content)
  | Detail (detail : string)
  | ValidationErrors (errors : list field_error)
  | PlainText (text : string).

Record response : Type := mkResponse { status : Z; payload : body }.

(** The double quote character. *)
Definition dq : string := String "034"%char EmptyString.

(** [base] of [suggestions] *)
Definition base : list suggestion :=
  [ mkSuggestion "Wave to silence notifications" (VStr "Focus");
    mkSuggestion "Pinch to zoom in any app" (VStr "Navigation");
    mkSuggestion ("Say " +:+ dq +:+ "open notes" +:+ dq +:+ " to start typing") (VStr "Voice") ].

(** The query parameter [limit: Optional[int]] as FastAPI meets it: not in
    the query, a text that reads as an integer, or a text that does not. *)
Inductive query_int : Type :=
  | Absent
  | Parsed (n : Z)
  | Unparsable (text : string).

(** The answer when the framework cannot send what it was about to send. *)
Definition internal_server_error : response :=
  mkResponse 500 (PlainText "Internal Server Error").

(** Whether FastAPI can send what a handler returned. *)
Definition content_compliant (c : content) : bool :=
  match c with
  | Created _ _ => true
  | Documents docs => forallb (fun d => json_compliant (VDict d)) docs
  | Suggestions items => forallb (fun s => json_compliant (category s)) items
  end.

(** [xs or ys] on lists *)
Definition list_or {A} (xs ys : list A) : list A :=
  match xs with
  | [] => ys
  | _ :: _ => xs
  end.

Section Handlers.
(** The [database] module, imported inside each handler: a store and its
    two functions, each returning a result or raising, together with the
    store afterwards.  The import itself is taken to succeed. *)
Variable Store : Type.
Variable db_create_document : string -> model -> Store -> (exn + string) * Store.
Variable db_get_documents :
  string -> option Z -> Store -> (exn + list document) * Store.
Variable repr : value -> string.

(** The store, and the calls made to it so far. *)
Record world : Type := mkWorld { store : Store; calls : list call }.

(** A computation that reads and writes the world and returns or raises. *)
Definition M (A : Type) : Type := world -> (exn + A) * world.

#[local] Instance M_ret : MRet M := fun A a w => (inr a, w).
#[local] Instance M_bind : MBind M := fun A B f m w =>
  match m w with
  | (inr a, w') => f a w'
  | (inl e, w') => (inl e, w')
  end.

Definition raise {A} (e : exn) : M A := fun w => (inl e, w).

(** [try: body / except Exception as e: handler e] *)
Definition try_except {A} (body : M A) (handler : exn -> M A) : M A :=
  fun w =>
    match body w with
    | (inr a, w') => (inr a, w')
    | (inl e, w') => handler e w'
    end.

Definition create_document (collection_name : string) (data : model) : M string :=
  fun w =>
    let '(r, s) := db_create_document collection_name data (store w) in
    (r, mkWorld s (calls w ++ [CreateDocument collection_name data])).

Definition get_documents (collection_name : string) (limit : option Z)
  : M (list document) :=
  fun w =>
    let '(r, s) := db_get_documents collection_name limit (store w) in
    (r, mkWorld s (calls w ++ [GetDocuments collection_name limit])).

(** [create_gesture] *)
Definition create_gesture (gesture : Gesture) : M content :=
  try_except
    (inserted_id ← create_document "gesture" (MGesture gesture);
     mret (Created inserted_id true))
    (fun e => raise (HTTPException 500 (exn_str e))).

(** [list_gestures] *)
Definition list_gestures (limit : option Z) : M content :=
  try_except
    (docs ← get_documents "gesture" limit;
     mret (Documents (serialize_doc repr <$> docs)))
    (fun e => raise (HTTPException 500 (exn_str e))).

(** [create_voice] *)
Definition create_voice (cmd : VoiceCommand) : M content :=
  try_except
    (inserted_id ← create_document "voicecommand" (MVoiceCommand cmd);
     mret (Created inserted_id true))
    (fun e => raise (HTTPException 500 (exn_str e))).

(** [list_voices] *)
Definition list_voices (limit : option Z) : M content :=
  try_except
    (docs ← get_documents "voicecommand" limit;
     mret (Documents (serialize_doc repr <$> docs)))
    (fun e => raise (HTTPException 500 (exn_str e))).

(** The entry appended for a gesture [g] in [suggestions]. *)
Definition gesture_entry (g : document) : suggestion :=
  {| title := "Use '" +:+ str repr (get g "name" (VStr "gesture"))
              +:+ "' to trigger " +:+ str repr (get g "intent" (VStr "an action"));
     category := or_ (get g "app" VNone) (VStr "Custom") |}.

(** The entry appended for a voice command [v] in [suggestions]. *)
Definition voice_entry (v : document) : suggestion :=
  {| title := "Say '" +:+ str repr (get v "phrase" (VStr "command"))
              +:+ "' to " +:+ str repr (get v "intent" (VStr "do something"));
     category := or_ (get v "app" VNone) (VStr "Custom") |}.

(** The [try] block of [suggestions]: both reads, or two empty lists as
    soon as one of them raises. *)
Definition fetch_recent : M (list document * list document) :=
  try_except
    (recent_gestures ← get_documents "gesture" (Some 3);
     recent_voices ← get_documents "voicecommand" (Some 3);
     mret (recent_gestures, recent_voices))
    (fun _ => mret ([], [])).

(** The two loops of [suggestions] that fill [dynamic]. *)
Definition build_dynamic (recent_gestures recent_voices : list document)
  : list suggestion :=
  let dynamic := [] in
  let dynamic :=
    foldl (fun dynamic g => dynamic ++ [gesture_entry g])%list dynamic recent_gestures in
  let dynamic :=
    foldl (fun dynamic v => dynamic ++ [voice_entry v])%list dynamic recent_voices in
  dynamic.

(** [suggestions] *)
Definition suggestions : M content :=
  '(recent_gestures, recent_voices) ← fetch_recent;
  let dynamic := build_dynamic recent_gestures recent_voices in
  mret (Suggestions (take 6 (list_or dynamic base))).

(** FastAPI around a handler: the returned value is the body of a 200
    response, an [HTTPException] becomes a response with its status and
    detail, any other exception is a plain 500.  The encoding of the returned
    value as JSON text is a separate step, [send_encoded], which the list
    routes go through; what the create handlers return (a text id and a
    boolean) always encodes, and the suggestions are left as the handler
    returns them. *)
Definition respond (handler : M content) (w : world) : response * world :=
  match handler w with
  | (inr c, w') => (mkResponse 200 (JSON c), w')
  | (inl (HTTPException status_code detail), w') =>
      (mkResponse status_code (Detail detail), w')
  | (inl (Exception _), w') =>
      (mkResponse 500 (PlainText "Internal Server Error"), w')
  end.

(** The answer to a body that fails validation: 422 with the errors, each
    listed with its input; when an input listed cannot be sent as JSON, the
    framework fails while answering and the client gets a plain 500. *)
Definition validation_answer (json : document) (errors : list field_error)
  : response :=
  if errors_encode json errors then mkResponse 422 (ValidationErrors errors)
  else internal_server_error.

(** [POST /gestures]: the body is validated against [Gesture] before the
    handler is entered; the handler is not entered for a body that fails. *)
Definition post_gestures (b : GestureBody) (w : world) : response * world :=
  match validate_Gesture b with
  | inl errors => (validation_answer (gesture_json b) errors, w)
  | inr gesture => respond (create_gesture gesture) w
  end.

(** [POST /voices] *)
Definition post_voices (b : VoiceCommandBody) (w : world) : response * world :=
  match validate_VoiceCommand b with
  | inl errors => (validation_answer (voice_json b) errors, w)
  | inr cmd => respond (create_voice cmd) w
  end.

(** The records a list handler returned are encoded before they are sent;
    when one of them cannot be, the client gets a plain 500. *)
Definition send_encoded (r : response * world) : response * world :=
  match payload r.1 with
  | JSON c => if content_compliant c then r else (internal_server_error, r.2)
  | _ => r
  end.

(** [GET /gestures], [GET /voices]: [limit] is 20 when the query does not
    give it, and a [limit] that is not an integer is answered with 422
    before the handler is entered. *)
Definition get_gestures (limit : query_int) (w : world) : response * world :=
  match limit with
  | Unparsable _ => (mkResponse 422 (ValidationErrors [mkError "limit" wrong_type]), w)
  | Parsed n => send_encoded (respond (list_gestures (Some n)) w)
  | Absent => send_encoded (respond (list_gestures (Some 20)) w)
  end.

Definition get_voices (limit : query_int) (w : world) : response * world :=
  match limit with
  | Unparsable _ => (mkResponse 422 (ValidationErrors [mkError "limit" wrong_type]), w)
  | Parsed n => send_encoded (respond (list_voices (Some n)) w)
  | Absent => send_encoded (respond (list_voices (Some 20)) w)
  end.

(** [GET /suggestions] *)
Definition get_suggestions : world -> response * world :=
  respond suggestions.

(** The domain routes of [app]. *)
Inductive request : Type :=
  | POST_gestures (b : GestureBody)
  | GET_gestures (limit : query_int)
  | POST_voices (b : VoiceCommandBody)
  | GET_voices (limit : query_int)
  | GET_suggestions.

Definition app (req : request) : world -> response * world :=
  match req with
  | POST_gestures b => post_gestures b
  | GET_gestures limit => get_gestures limit
  | POST_voices b => post_voices b
  | GET_voices limit => get_voices limit
  | GET_suggestions => get_suggestions
  end.

End Handlers.

Arguments mkWorld {Store} store calls.
Arguments store {Store} w.
Arguments calls {Store} w.

(** ** An in-memory document store *)

Module MemStore.

(** Modelled from the spec: the Document Store Adapter (the [database]
    module, which is not among the sources).  [createDocument] fails with a
    StorageFailure when the store is unreachable and otherwise returns a newly
    assigned unique identifier; [getDocuments] returns at most [limit] of the
    most recently created records, most recent first, an empty sequence for a
    collection that does not exist yet, and fails only when the store is
    unreachable. *)
Record t : Type := mk {
  reachable : bool;
  next_id : N;
  collections : gmap string (list document)
}.

Definition dump_opt {A} (f : A -> value) (x : option A) : value :=
  match x with
  | Some a => f a
  | None => VNone
  end.

(** Modelled from the spec: the record stored for a normalized model, one
    key per field (the listing example shows the keys name, intent, app,
    sensitivity and metadata next to the id). *)
Definition model_dump (data : model) : document :=
  match data with
  | MGesture g =>
      <["name" := VStr (g_name g)]> (
      <["intent" := VStr (g_intent g)]> (
      <["app" := dump_opt VStr (g_app g)]> (
      <["sensitivity" := dump_opt VFloat (g_sensitivity g)]> (
      <["metadata" := dump_opt VDict (g_metadata g)]> ∅))))
  | MVoiceCommand v =>
      <["phrase" := VStr (v_phrase v)]> (
      <["intent" := VStr (v_intent v)]> (
      <["language" := dump_opt VStr (v_language v)]> (
      <["app" := dump_opt VStr (v_app v)]> (
      <["context" := dump_opt VDict (v_context v)]> ∅))))
  end.

(** Modelled from the spec: the StorageFailure of an unreachable store. *)
Definition unreachable : exn := Exception "document store unreachable".

(** Modelled from the spec: [createDocument(collectionName, record)] stores
    the record under a newly assigned identifier and returns it, or fails
    when the store is unreachable. *)
Definition create_document (collection_name : string) (data : model) (s : t)
  : (exn + string) * t :=
  if reachable s then
    let id := pretty (next_id s) in
    let record := <["_id" := VObjectId id]> (model_dump data) in
    (inr id,
     mk true (N.succ (next_id s))
        (<[collection_name := record :: default [] (collections s !! collection_name)]>
           (collections s)))
  else (inl unreachable, s).

(** Modelled from the spec: [getDocuments(collectionName, limit)] returns at
    most [limit] records, most recent first, and fails only when the store is
    unreachable. *)
Definition get_documents (collection_name : string) (limit : option Z) (s : t)
  : (exn + list document) * t :=
  if reachable s then
    let all := default [] (collections s !! collection_name) in
    (inr (match limit with
          | Some n => take (Z.to_nat n) all
          | None => all
          end), s)
  else (inl unreachable, s).

(** A store with nothing in it, and the same store out of reach. *)
Definition empty : t := mk true 0 ∅.
Definition down : t := mk false 0 ∅.

(** Stands for [repr] in examples whose records hold no float, dict or
    list where text is asked for. *)
Definition no_repr : value -> string := fun _ => "<object>".

End MemStore.

(** ** Vocabulary of the statements *)

(** Validation fails and [err] is among the reported errors. *)
Definition rejects {A} (v : validated A) (err : field_error) : Prop :=
  exists errors, v = inl errors /\ err ∈ errors.

(** A create request whose body lacks a required text field. *)
Definition lacks_required (req : request) : Prop :=
  match req with
  | POST_gestures b => b_name b = Missing \/ b_intent b = Missing
  | POST_voices b => c_phrase b = Missing \/ c_intent b = Missing
  | _ => False
  end.

(** For a create request whose body validates: the class name of the entity
    and the normalized record. *)
Definition validated_create (req : request) : option (string * model) :=
  match req with
  | POST_gestures b =>
      match validate_Gesture b with
      | inr gesture => Some ("Gesture", MGesture gesture)
      | inl _ => None
      end
  | POST_voices b =>
      match validate_VoiceCommand b with
      | inr cmd => Some ("VoiceCommand", MVoiceCommand cmd)
      | inl _ => None
      end
  | _ => None
  end.

(** One of the two reads of [suggestions] raises on the store [s]. *)
Definition read_fails {Store : Type}
    (db_get_documents : string -> option Z -> Store -> (exn + list document) * Store)
    (s : Store) : bool :=
  match db_get_documents "gesture" (Some 3) s with
  | (inl _, _) => true
  | (inr _, s') =>
      match db_get_documents "voicecommand" (Some 3) s' with
      | (inl _, _) => true
      | (inr _, _) => false
      end
  end.

(** The text printed for field [k] of a record: that of the stored value
    when the key is there, [dflt] when it is not. *)
Definition field_text (repr : value -> string) (d : document) (k dflt : string)
  : string :=
  match d !! k with
  | Some v => str repr v
  | None => dflt
  end.

(** The category of a record: its ["app"] when the key is there with a
    truthy value, ["Custom"] otherwise. *)
Definition app_or_custom (d : document) : value :=
  match d !! "app" with
  | Some a => if truthy a then a else VStr "Custom"
  | None => VStr "Custom"
  end.

(** The titles as the specification words them, with Python's [or]:
    [g.name or "gesture"] is the name unless it is absent or falsy. *)
Definition claimed_gesture_title (repr : value -> string) (g : document) : string :=
  "Use '" +:+ str repr (or_ (get g "name" VNone) (VStr "gesture"))
  +:+ "' to trigger " +:+ str repr (or_ (get g "intent" VNone) (VStr "an action")).

Definition claimed_voice_title (repr : value -> string) (v : document) : string :=
  "Say '" +:+ str repr (or_ (get v "phrase" VNone) (VStr "command"))
  +:+ "' to " +:+ str repr (or_ (get v "intent" VNone) (VStr "do something")).

(** ** Example data *)

Module Ex.

Definition run := app MemStore.t MemStore.create_document MemStore.get_documents
                      MemStore.no_repr.

Definition fresh : world MemStore.t := mkWorld MemStore.empty [].
Definition offline : world MemStore.t := mkWorld MemStore.down [].

(** [{"name": "Wave", "intent": "mute"}] *)
Definition wave : GestureBody :=
  mkGestureBody (Given "Wave") (Given "mute") Missing Missing Missing ∅.

(** [{"name": "", "intent": "mute"}] *)
Definition empty_name : GestureBody :=
  mkGestureBody (Given "") (Given "mute") Missing Missing Missing ∅.

(** [{"intent": "mute"}] *)
Definition no_name : GestureBody :=
  mkGestureBody Missing (Given "mute") Missing Missing Missing ∅.

(** [{"name": "Wave", "intent": "mute", "sensitivity": 1.5}] *)
Definition too_sensitive : GestureBody :=
  mkGestureBody (Given "Wave") (Given "mute") Missing (Given 1.5%float) Missing ∅.

(** A stored gesture as the store returns it. *)
Definition raw_wave : document :=
  <["_id" := VObjectId "65f1c0ffee65f1c0ffee65f1"]> (
  <["name" := VStr "Wave"]> (
  <["intent" := VStr "mute"]> (
  <["app" := VNone]> (
  <["sensitivity" := VFloat f0_7]> (
  <["metadata" := VDict ∅]> ∅))))).

(** A stored gesture whose name is the empty text. *)
Definition raw_unnamed : document :=
  <["name" := VStr ""]> (<["intent" := VStr "mute"]> (<["app" := VNone]> ∅)).

(** A stored voice command. *)
Definition raw_notes : document :=
  <["phrase" := VStr "open notes"]> (
  <["intent" := VStr "open_notes"]> (
  <["app" := VStr "Notes"]> ∅)).

(** [{"phrase": "", "intent": "open_notes"}] *)
Definition empty_phrase : VoiceCommandBody :=
  mkVoiceCommandBody (Given "") (Given "open_notes") Missing Missing Missing ∅.

(** Voice command bodies and gesture bodies numbered by their intent. *)
Definition gesture_n (n : string) : GestureBody :=
  mkGestureBody (Given ("g" +:+ n)) (Given ("do" +:+ n)) Missing Missing Missing ∅.

Definition voice_n (n : string) : VoiceCommandBody :=
  mkVoiceCommandBody (Given ("say " +:+ n)) (Given ("do" +:+ n)) Missing Missing Missing ∅.

(** Serve the requests one after the other. *)
Definition run_all (reqs : list request) (w : world MemStore.t) : world MemStore.t :=
  foldl (fun w req => (run req w).2) w reqs.

(** Four gestures and four voice commands created in a fresh store. *)
Definition busy : world MemStore.t :=
  run_all
    ((POST_gestures ∘ gesture_n <$> ["1"; "2"; "3"; "4"])
     ++ (POST_voices ∘ voice_n <$> ["1"; "2"; "3"; "4"]))%list
    fresh.

End Ex.

(** ** main.py: the diagnostic endpoint *)

Module Diagnostics.

(** A text is held as its UTF-8 bytes: a character is a lead byte followed
    by its continuation bytes, those of the form [10xxxxxx]. *)
Definition continuation (c : ascii) : bool :=
  (Nat.leb 128 (nat_of_ascii c) && Nat.ltb (nat_of_ascii c) 192)%bool.

(** [len(s)]: the number of characters. *)
Fixpoint chars (s : string) : nat :=
  match s with
  | EmptyString => O
  | String c s' => if continuation c then chars s' else S (chars s')
  end.

(** [s[:n]]: the first [n] characters. *)
Fixpoint prefix (n : nat) (s : string) : string :=
  match s with
  | EmptyString => EmptyString
  | String c s' =>
      if continuation c then String c (prefix n s')
      else match n with
           | O => EmptyString
           | S n' => String c (prefix n' s')
           end
  end.

(** The object [db] of the [database] module, with what [test_database]
    asks of it: [db.name] when the attribute is there, and
    [db.list_collection_names()], which returns the names or raises an
    exception with the given text. *)
Record db_handle : Type := mkDb {
  db_name : option string;
  list_collection_names : string + list string
}.

(** What [from database import db] does: it raises [ImportError], it raises
    another exception with the given text, or it binds [db], which may be
    [None]. *)
Inductive import_outcome : Type :=
  | ImportError
  | ImportException (message : string)
  | Imported (db : option db_handle).

(** The dict [response] of [test_database]. *)
Record report : Type := mkReport {
  backend : string;
  database : string;
  database_url : option string;
  database_name : option string;
  connection_status : string;
  collections : list string
}.

Definition set_database (v : string) (r : report) : report :=
  mkReport (backend r) v (database_url r) (database_name r)
           (connection_status r) (collections r).
Definition set_database_url (v : string) (r : report) : report :=
  mkReport (backend r) (database r) (Some v) (database_name r)
           (connection_status r) (collections r).
Definition set_database_name (v : string) (r : report) : report :=
  mkReport (backend r) (database r) (database_url r) (Some v)
           (connection_status r) (collections r).
Definition set_connection_status (v : string) (r : report) : report :=
  mkReport (backend r) (database r) (database_url r) (database_name r)
           v (collections r).
Definition set_collections (v : list string) (r : report) : report :=
  mkReport (backend r) (database r) (database_url r) (database_name r)
           (connection_status r) v.

(** The truth value of [os.getenv(...)]: set and not empty. *)
Definition env_truthy (v : option string) : bool :=
  match v with
  | Some s => negb (String.eqb s "")
  | None => false
  end.

(** [test_database], given what the import does and the value of the
    environment variable [DATABASE_URL]. *)
Definition test_database (import_db : import_outcome) (DATABASE_URL : option string)
  : report :=
  let response :=
    mkReport "✅ Running" "❌ Not Available" None None "Not Connected" [] in
  match import_db with
  | Imported (Some db) =>
      let response := set_database "✅ Available" response in
      let response :=
        set_database_url (if env_truthy DATABASE_URL then "✅ Set" else "❌ Not Set")
                         response in
      let response :=
        set_database_name (match db_name db with
                           | Some name => name
                           | None => "✅ Configured"
                           end) response in
      let response := set_connection_status "Connected" response in
      match list_collection_names db with
      | inr names =>
          let response := set_collections (take 10 names) response in
          set_database "✅ Connected & Working" response
      | inl e =>
          set_database ("⚠️  Connected but Error: " +:+ prefix 80 e) response
      end
  | Imported None => set_database "⚠️  Available but not initialized" response
  | ImportError => set_database "❌ Database module not found" response
  | ImportException e => set_database ("❌ Error: " +:+ prefix 80 e) response
  end.

End Diagnostics.

(** ** main.py: PyObjectId *)

Section PyObjectId.
(** [ObjectId(s)] for a text [s]: the identifier built by [bson], or nothing
    when it raises. *)
Variable ObjectId_of_str : string -> option string.
Variable repr : value -> string.

(** [PyObjectId.validate]: an [ObjectId] is returned as it is; anything else
    goes through [ObjectId(str(v))], and [ValueError("Invalid ObjectId")] is
    raised when that fails. *)
Definition PyObjectId_validate (v : value) : string + value :=
  match v with
  | VObjectId _ => inr v
  | _ =>
      match ObjectId_of_str (str repr v) with
      | Some hex => inr (VObjectId hex)
      | None => inl "Invalid ObjectId"
      end
  end.
End PyObjectId.

(** ** More vocabulary *)

(** The request is one of the two create routes. *)
Definition is_create (req : request) : bool :=
  match req with
  | POST_gestures _ | POST_voices _ => true
  | _ => false
  end.

Definition is_read_call (c : call) : bool :=
  match c with
  | GetDocuments _ _ => true
  | CreateDocument _ _ => false
  end.

Definition is_write_call (c : call) : bool :=
  match c with
  | CreateDocument _ _ => true
  | GetDocuments _ _ => false
  end.

(** For a list request: the collection read and the limit asked for. *)
Definition listed (req : request) : option (string * Z) :=
  match req with
  | GET_gestures (Parsed n) => Some ("gesture", n)
  | GET_gestures Absent => Some ("gesture", 20)
  | GET_voices (Parsed n) => Some ("voicecommand", n)
  | GET_voices Absent => Some ("voicecommand", 20)
  | _ => None
  end.

(** The body of a create request as parsed from JSON. *)
Definition body_json (req : request) : document :=
  match req with
  | POST_gestures b => gesture_json b
  | POST_voices b => voice_json b
  | _ => ∅
  end.

(** The request holds no number that JSON cannot carry (an overflowing
    literal such as [1e400], or [NaN]). *)
Definition body_compliant (req : request) : bool :=
  json_compliant (VDict (body_json req)).

(** The fields a create route validates, in the order the model declares
    them. *)
Definition declared_fields (req : request) : list string :=
  match req with
  | POST_gestures _ => ["name"; "intent"; "app"; "sensitivity"; "metadata"]
  | POST_voices _ => ["phrase"; "intent"; "language"; "app"; "context"]
  | _ => []
  end.

(** The sensitivity of a Gesture body, when the body has one, is a number
    or null: it is not a value of another type, which pydantic may reject or
    convert. *)
Definition sensitivity_typed (req : request) : Prop :=
  match req with
  | POST_gestures b => forall input, b_sensitivity b <> WrongType input
  | _ => True
  end.

(** The errors a validation reports: none when it succeeds. *)
Definition errors_of {A} (v : validated A) : list field_error :=
  match v with
  | inl errors => errors
  | inr _ => []
  end.

(** A failed validation reports at least one error. *)
Definition reports_failure {A} (v : validated A) : Prop :=
  forall errors, v = inl errors -> errors <> [].

(** ** More example data *)

Module Ex2.

(** A stored gesture with an id of its own, a creation date and a date
    inside its metadata. *)
Definition dated : document :=
  <["_id" := VObjectId "65f1c0ffee65f1c0ffee65f1"]> (
  <["id" := VInt 7]> (
  <["name" := VStr "Wave"]> (
  <["created_at" := VDatetime (mkDatetime 2024 3 5 7 8 9 0)]> (
  <["metadata" :=
      VDict (<["seen" := VDatetime (mkDatetime 2024 3 5 7 8 9 0)]> ∅)]> ∅)))).

(** [{"name": "Wave", "intent": "mute", "app": "Slides", "sensitivity": 0.5,
      "metadata": null}] *)
Definition full : GestureBody :=
  mkGestureBody (Given "Wave") (Given "mute") (Given "Slides")
                (Given 0.5%float) Null ∅.

Definition full_gesture : Gesture :=
  mkGesture "Wave" "mute" (Some "Slides") (Some 0.5%float) None.

(** [{"phrase": "open notes", "intent": "open_notes", "app": null}] *)
Definition notes : VoiceCommandBody :=
  mkVoiceCommandBody (Given "open notes") (Given "open_notes") Missing Null Missing ∅.

Definition notes_command : VoiceCommand :=
  mkVoiceCommand "open notes" "open_notes" (Some "en") None (Some ∅).

(** [{"name": 3, "sensitivity": 1.5}] *)
Definition broken : GestureBody :=
  mkGestureBody (WrongType (VInt 3)) Missing Missing (Given 1.5%float) Missing ∅.

(** [{"name": "morning", "steps": []}] *)
Definition morning : WorkflowBody := mkWorkflowBody (Given "morning") (Given []) Missing.

(** A store holding one gesture and two voice commands. *)
Definition small : world MemStore.t :=
  Ex.run_all [POST_gestures Ex.wave; POST_voices notes; POST_voices (Ex.voice_n "1")]
             Ex.fresh.

(** [{"name": "Wave", "intent": "mute", "sensitivity": 1e400}]: the number
    is read as infinity. *)
Definition overflow : GestureBody :=
  mkGestureBody (Given "Wave") (Given "mute") Missing (Given infinity) Missing ∅.

(** [{"name": "Wave", "intent": "mute", "metadata": {"gain": 1e400}}] *)
Definition loud : GestureBody :=
  mkGestureBody (Given "Wave") (Given "mute") Missing Missing
                (Given (<["gain" := VFloat infinity]> ∅)) ∅.

(** [{"intent": "mute", "gain": 1e400}]: no name, and a key the model does
    not declare. *)
Definition stray : GestureBody :=
  mkGestureBody Missing (Given "mute") Missing Missing Missing
                (<["gain" := VFloat infinity]> ∅).

(** A store holding the gesture created from [loud]. *)
Definition noisy : world MemStore.t :=
  Ex.run_all [POST_gestures loud] Ex.fresh.

(** A [db] whose listing raises. *)
Definition flaky : Diagnostics.db_handle :=
  Diagnostics.mkDb (Some "gestureai") (inl "connection refused").

(** A [db] whose listing raises with a text of 100 characters, each of two
    bytes. *)
Definition wordy : Diagnostics.db_handle :=
  Diagnostics.mkDb None (inl (String.concat "" (replicate 100 "é"))).

(** A [db] with twelve collections. *)
Definition crowded : Diagnostics.db_handle :=
  Diagnostics.mkDb None
    (inr ["a"; "b"; "c"; "d"; "e"; "f"; "g"; "h"; "i"; "j"; "k"; "l"]).

(** [ObjectId(s)] taken to accept the texts of 24 characters. *)
Definition oid24 (s : string) : option string :=
  if Nat.eqb (String.length s) 24 then Some s else None.

End Ex2.

(** * Properties *)

(** ** serialize_doc *)

Section SerializeFacts.
Variable repr : value -> string.

Lemma serialize_step_lookup (out : document) (k i : string) (v : value) :
  serialize_step out (k, v) !! i =
    if decide (k = i) then
      match v with
      | VDatetime d => Some (VStr (isoformat d))
      | _ => out !! i
      end
    else out !! i.
Proof.
  unfold serialize_step; simpl.
  destruct (decide (k = i)) as [->|Hne].
  - destruct v; try reflexivity. apply lookup_insert_eq.
  - destruct v; try reflexivity. by apply lookup_insert_ne.
Qed.

(** The loop, item by item, over any snapshot with distinct keys. *)
Lemma serialize_loop_lookup (l : list (string * value)) :
  forall (acc : document) (i : string),
    NoDup l.*1 ->
    foldl serialize_step acc l !! i =
      match (list_to_map l : document) !! i with
      | Some (VDatetime d) => Some (VStr (isoformat d))
      | _ => acc !! i
      end.
Proof.
  induction l as [|[k v] l IH]; intros acc i Hnd.
  - reflexivity.
  - rewrite fmap_cons, NoDup_cons in Hnd. destruct Hnd as [Hk Hnd].
    cbn [foldl]. rewrite (IH _ _ Hnd). cbn [list_to_map foldr].
    change (foldr _ ∅ l) with (list_to_map l : document).
    rewrite serialize_step_lookup.
    destruct (decide (k = i)) as [->|Hne].
    + rewrite (not_elem_of_list_to_map_1 _ _ Hk).
      simpl. rewrite lookup_insert_eq. by destruct v.
    + simpl. rewrite lookup_insert_ne by done. reflexivity.
Qed.

(** The loop of [serialize_doc] maps [iso_value] over the record. *)
Lemma serialize_loop (m : document) :
  foldl serialize_step m (map_to_list m) = iso_value <$> m.
Proof.
  apply map_eq; intros i.
  rewrite serialize_loop_lookup by apply NoDup_fst_map_to_list.
  rewrite list_to_map_to_list, lookup_fmap.
  destruct (m !! i) as [[]|]; reflexivity.
Qed.

Lemma serialize_doc_unfold (doc : document) :
  serialize_doc repr doc =
    iso_value <$>
      match doc !! "_id" with
      | Some oid => <["id" := VStr (str repr oid)]> (delete "_id" doc)
      | None => doc
      end.
Proof. unfold serialize_doc. apply serialize_loop. Qed.

Lemma iso_value_no_datetime (m : document) :
  no_datetime m -> iso_value <$> m = m.
Proof.
  intros Hm. apply map_eq; intros i. rewrite lookup_fmap.
  destruct (m !! i) as [v|] eqn:Hi; [|reflexivity].
  specialize (Hm i v Hi). simpl in Hm. by destruct v.
Qed.

Lemma iso_value_twice (v : value) : iso_value (iso_value v) = iso_value v.
Proof. by destruct v. Qed.

Lemma serialize_doc_no_native_id (doc : document) :
  serialize_doc repr doc !! "_id" = None.
Proof.
  rewrite serialize_doc_unfold, lookup_fmap.
  destruct (doc !! "_id") eqn:Hid.
  - rewrite lookup_insert_ne by done. by rewrite lookup_delete_eq.
  - by rewrite Hid.
Qed.

(** Serializing a serialized record changes nothing, whatever the record
    held. *)
Lemma serialize_doc_twice (doc : document) :
  serialize_doc repr (serialize_doc repr doc) = serialize_doc repr doc.
Proof.
  rewrite (serialize_doc_unfold (serialize_doc repr doc)).
  rewrite serialize_doc_no_native_id.
  rewrite serialize_doc_unfold, <- map_fmap_compose.
  apply map_fmap_ext. intros i v _. apply iso_value_twice.
Qed.

(** C6: a raw record with a native identifier [x] under ["_id"] and no
    date/time value serializes to a record without ["_id"], whose ["id"]
    is the text [str(x)], and whose other fields are those of the raw
    record. *)
Theorem serialize_doc_native_id (doc : document) (x : value) :
  doc !! "_id" = Some x ->
  no_datetime doc ->
  serialize_doc repr doc !! "_id" = None
  /\ serialize_doc repr doc !! "id" = Some (VStr (str repr x))
  /\ (forall k, k <> "_id" -> k <> "id" ->
        serialize_doc repr doc !! k = doc !! k)
  /\ serialize_doc repr doc = <["id" := VStr (str repr x)]> (delete "_id" doc).
Proof.
  intros Hid Hnd.
  assert (Heq : serialize_doc repr doc
                = <["id" := VStr (str repr x)]> (delete "_id" doc)).
  { rewrite serialize_doc_unfold, Hid. apply iso_value_no_datetime.
    apply map_Forall_insert_2; [reflexivity|].
    by apply map_Forall_delete. }
  rewrite Heq. repeat split.
  - rewrite lookup_insert_ne by done. apply lookup_delete_eq.
  - apply lookup_insert_eq.
  - intros k H1 H2. rewrite lookup_insert_ne by done.
    by apply lookup_delete_ne.
Qed.

(** C7: a record without ["_id"] and without date/time values is returned
    as it is, and serializing twice is serializing once. *)
Theorem serialize_doc_idempotent (doc : document) :
  doc !! "_id" = None ->
  no_datetime doc ->
  serialize_doc repr doc = doc
  /\ serialize_doc repr (serialize_doc repr doc) = serialize_doc repr doc.
Proof.
  intros Hid Hnd. split; [|apply serialize_doc_twice].
  rewrite serialize_doc_unfold, Hid. by apply iso_value_no_datetime.
Qed.
End SerializeFacts.

Lemma serialize_doc_native_id_witness :
  serialize_doc MemStore.no_repr Ex.raw_wave !! "id"
    = Some (VStr "65f1c0ffee65f1c0ffee65f1").
Proof.
  refine (proj1 (proj2 (serialize_doc_native_id MemStore.no_repr Ex.raw_wave
                          (VObjectId "65f1c0ffee65f1c0ffee65f1") _ _))).
  - reflexivity.
  - apply (bool_decide_unpack _). vm_compute. exact I.
Defined.

Lemma serialize_doc_idempotent_witness :
  serialize_doc MemStore.no_repr (delete "_id" Ex.raw_wave) = delete "_id" Ex.raw_wave.
Proof.
  refine (proj1 (serialize_doc_idempotent MemStore.no_repr (delete "_id" Ex.raw_wave) _ _)).
  - vm_compute. reflexivity.
  - apply (bool_decide_unpack _). vm_compute. exact I.
Defined.

(** ** Float comparisons *)

Lemma SFcompare_Lt_Gt (x y : spec_float) :
  SFcompare x y = Some Lt -> SFcompare y x = Some Gt.
Proof.
  destruct x as [sx|sx| |sx mx ex], y as [sy|sy| |sy my ey]; simpl;
    try discriminate; try (destruct sx; discriminate || reflexivity);
    try (destruct sy; discriminate || reflexivity);
    try (destruct sx, sy; discriminate || reflexivity).
  change (Pos.compare_cont Eq mx my) with (mx ?= my)%positive.
  change (Pos.compare_cont Eq my mx) with (my ?= mx)%positive.
  rewrite (Z.compare_antisym ex ey), (Pos.compare_antisym mx my).
  destruct sx, sy; try discriminate; try reflexivity;
    destruct (ex ?= ey)%Z; simpl; try discriminate; try reflexivity;
    destruct (mx ?= my)%positive; simpl; discriminate || reflexivity.
Qed.

(** [x < y] excludes [y <= x]. *)
Lemma ltb_not_leb (x y : float) :
  PrimFloat.ltb x y = true -> PrimFloat.leb y x = false.
Proof.
  rewrite ltb_spec, leb_spec. unfold SFltb, SFleb. intros H.
  destruct (SFcompare (Prim2SF x) (Prim2SF y)) as [[]|] eqn:Hc; try discriminate.
  by rewrite (SFcompare_Lt_Gt _ _ Hc).
Qed.

(** ** Validation *)

Lemma rejects_vapp_l {A B} (f : validated (A -> B)) (x : validated A) err :
  rejects f err -> rejects (f <*> x) err.
Proof.
  intros (es & -> & Hin). destruct x as [es'|a]; simpl.
  - exists (es ++ es')%list. split; [reflexivity|]. apply elem_of_app; by left.
  - by exists es.
Qed.

Lemma rejects_vapp_r {A B} (f : validated (A -> B)) (x : validated A) err :
  rejects x err -> rejects (f <*> x) err.
Proof.
  intros (es & -> & Hin). destruct f as [es'|g]; simpl.
  - exists (es' ++ es)%list. split; [reflexivity|]. apply elem_of_app; by right.
  - by exists es.
Qed.

Lemma required_missing {A} (loc : string) :
  rejects (required (A := A) loc Missing) (mkError loc missing).
Proof. eexists; split; [reflexivity|]. apply list_elem_of_here. Qed.

(** A number below the lower bound or above the upper bound fails the
    field. *)
Lemma optional_bounded_outside loc dflt lo hi f :
  PrimFloat.ltb f lo = true \/ PrimFloat.ltb hi f = true ->
  rejects (optional_bounded loc dflt lo hi (Given f)) (mkError loc greater_than_equal)
  \/ rejects (optional_bounded loc dflt lo hi (Given f)) (mkError loc less_than_equal).
Proof.
  intros H. unfold optional_bounded.
  destruct (PrimFloat.leb f hi) eqn:Hhi; simpl.
  - destruct H as [H|H].
    + apply ltb_not_leb in H. rewrite H. simpl. left.
      eexists; split; [reflexivity|]. apply list_elem_of_here.
    + apply ltb_not_leb in H. congruence.
  - right. eexists; split; [reflexivity|]. apply list_elem_of_here.
Qed.

(** ** What can be sent as JSON *)

Lemma json_compliant_dict (m : document) :
  json_compliant (VDict m) = true
  <-> map_Forall (fun _ x => json_compliant x = true) m.
Proof.
  change (json_compliant (VDict m))
    with (map_fold (fun (_ : string) x acc => json_compliant x && acc) true m).
  induction m as [|k x m Hk Hfold IH] using map_first_key_ind.
  - rewrite map_fold_empty. split; [intros _; apply map_Forall_empty|done].
  - rewrite map_fold_insert_first_key by done.
    rewrite andb_true_iff, IH, map_Forall_insert by done. done.
Qed.

Lemma json_compliant_lookup (m : document) (k : string) (v : value) :
  json_compliant (VDict m) = true -> m !! k = Some v -> json_compliant v = true.
Proof. rewrite json_compliant_dict. intros Hm Hk. exact (Hm k v Hk). Qed.

(** A body without a non-compliant value gives errors that can be sent. *)
Lemma errors_encode_compliant (json : document) (errors : list field_error) :
  json_compliant (VDict json) = true -> errors_encode json errors = true.
Proof.
  intros Hj. unfold errors_encode. apply forallb_forall. intros err _.
  unfold error_input, get.
  destruct (kind err); try exact Hj;
    (destruct (json !! loc err) as [v|] eqn:Hk;
     [by apply (json_compliant_lookup json (loc err))|reflexivity]).
Qed.

(** One error whose input cannot be sent is enough. *)
Lemma errors_encode_false (json : document) (errors : list field_error) err :
  err ∈ errors ->
  json_compliant (error_input json err) = false ->
  errors_encode json errors = false.
Proof.
  intros Hin Hf. unfold errors_encode.
  destruct (forallb _ errors) eqn:Hall; [|reflexivity].
  rewrite forallb_forall in Hall.
  apply list_elem_of_In in Hin. specialize (Hall err Hin). congruence.
Qed.

Lemma lookup_with_field (k j : string) (x : option value) (m : document) :
  with_field k x m !! j = if decide (k = j) then x else m !! j.
Proof.
  unfold with_field. destruct x as [v|].
  - apply lookup_insert.
  - rewrite lookup_delete. by destruct (decide (k = j)).
Qed.

Lemma gesture_json_sensitivity (b : GestureBody) :
  gesture_json b !! "sensitivity" = raw_input VFloat (b_sensitivity b).
Proof. unfold gesture_json. by rewrite !lookup_with_field. Qed.

Section HandlerFacts.
Variable Store : Type.
Variable db_create_document : string -> model -> Store -> (exn + string) * Store.
Variable db_get_documents :
  string -> option Z -> Store -> (exn + list document) * Store.
Variable repr : value -> string.

#[local] Abbreviation serve := (app Store db_create_document db_get_documents repr).

(** A body that fails validation is answered without entering the handler
    and the world is left as it was. *)
Lemma post_gestures_invalid (b : GestureBody) errors (w : world Store) :
  validate_Gesture b = inl errors ->
  serve (POST_gestures b) w = (validation_answer (gesture_json b) errors, w).
Proof. intros H. simpl. unfold post_gestures. by rewrite H. Qed.

Lemma post_voices_invalid (b : VoiceCommandBody) errors (w : world Store) :
  validate_VoiceCommand b = inl errors ->
  serve (POST_voices b) w = (validation_answer (voice_json b) errors, w).
Proof. intros H. simpl. unfold post_voices. by rewrite H. Qed.

(** The answer is 422 when the body holds no value that cannot be sent. *)
Lemma validation_answer_compliant (json : document) (errors : list field_error) :
  json_compliant (VDict json) = true ->
  validation_answer json errors = mkResponse 422 (ValidationErrors errors).
Proof.
  intros Hj. unfold validation_answer. by rewrite errors_encode_compliant.
Qed.

(** What [create_gesture] and [create_voice] do, in one equation. *)
Lemma respond_create_gesture (gesture : Gesture) (w : world Store) :
  respond Store (create_gesture Store db_create_document gesture) w =
    (match (db_create_document "gesture" (MGesture gesture) (store w)).1 with
     | inr id => mkResponse 200 (JSON (Created id true))
     | inl e => mkResponse 500 (Detail (exn_str e))
     end,
     mkWorld (db_create_document "gesture" (MGesture gesture) (store w)).2
             (calls w ++ [CreateDocument "gesture" (MGesture gesture)])).
Proof.
  unfold respond, create_gesture, try_except, create_document, raise,
    mbind, M_bind, mret, M_ret.
  destruct (db_create_document "gesture" (MGesture gesture) (store w))
    as [[e|id] s]; reflexivity.
Qed.

Lemma respond_create_voice (cmd : VoiceCommand) (w : world Store) :
  respond Store (create_voice Store db_create_document cmd) w =
    (match (db_create_document "voicecommand" (MVoiceCommand cmd) (store w)).1 with
     | inr id => mkResponse 200 (JSON (Created id true))
     | inl e => mkResponse 500 (Detail (exn_str e))
     end,
     mkWorld (db_create_document "voicecommand" (MVoiceCommand cmd) (store w)).2
             (calls w ++ [CreateDocument "voicecommand" (MVoiceCommand cmd)])).
Proof.
  unfold respond, create_voice, try_except, create_document, raise,
    mbind, M_bind, mret, M_ret.
  destruct (db_create_document "voicecommand" (MVoiceCommand cmd) (store w))
    as [[e|id] s]; reflexivity.
Qed.

(** C1, as the code has it: a Gesture body whose [sensitivity] is a number
    below 0.0 or above 1.0 fails validation with an error on that field, and
    the world (store and call log) is unchanged, so no storage call was made
    and no clamped value was stored.  The answer is 422 when the body holds
    no number that JSON cannot carry; when the sensitivity itself is not
    finite (a literal such as [1e400]), the 422 answer, which repeats it,
    cannot be sent and the answer is a plain 500. *)
Theorem sensitivity_outside_rejected (b : GestureBody) (f : float) (w : world Store) :
  b_sensitivity b = Given f ->
  PrimFloat.ltb f 0 = true \/ PrimFloat.ltb 1 f = true ->
  exists errors,
    validate_Gesture b = inl errors
    /\ (mkError "sensitivity" greater_than_equal ∈ errors
        \/ mkError "sensitivity" less_than_equal ∈ errors)
    /\ (serve (POST_gestures b) w).2 = w
    /\ (body_compliant (POST_gestures b) = true ->
        (serve (POST_gestures b) w).1 = mkResponse 422 (ValidationErrors errors))
    /\ (PrimFloat.is_finite f = false ->
        (serve (POST_gestures b) w).1 = internal_server_error).
Proof.
  intros Hs Hout.
  assert (Hrej : rejects (validate_Gesture b) (mkError "sensitivity" greater_than_equal)
                 \/ rejects (validate_Gesture b) (mkError "sensitivity" less_than_equal)).
  { unfold validate_Gesture. rewrite Hs.
    destruct (optional_bounded_outside "sensitivity" (Some f0_7) 0 1 f Hout) as [H|H];
      [left|right]; by apply rejects_vapp_l, rejects_vapp_r. }
  assert (Hecho : forall k, k <> missing ->
            error_input (gesture_json b) (mkError "sensitivity" k) = VFloat f).
  { intros k Hk. unfold error_input, get. simpl.
    rewrite gesture_json_sensitivity, Hs. by destruct k. }
  destruct Hrej as [(es & He & Hin)|(es & He & Hin)]; exists es;
    rewrite (post_gestures_invalid b es w He); simpl;
    (split; [exact He|]); (split; [tauto|]); (split; [reflexivity|]); split.
  - by apply validation_answer_compliant.
  - intros Hfin. unfold validation_answer.
    by rewrite (errors_encode_false _ _ _ Hin) by (by rewrite Hecho).
  - by apply validation_answer_compliant.
  - intros Hfin. unfold validation_answer.
    by rewrite (errors_encode_false _ _ _ Hin) by (by rewrite Hecho).
Qed.

(** C2, as the code has it: a create request whose body lacks [name] or
    [intent] (Gesture), or [phrase] or [intent] (VoiceCommand), and holds no
    number that JSON cannot carry, is answered with 422, a [missing] error is
    reported, and the world is unchanged. *)
Theorem missing_required_rejected (req : request) (w : world Store) :
  lacks_required req ->
  body_compliant req = true ->
  exists errors field,
    mkError field missing ∈ errors
    /\ serve req w = (mkResponse 422 (ValidationErrors errors), w).
Proof.
  destruct req as [b| |b| |]; simpl; try tauto; intros [H|H] Hc.
  - assert (Hr : rejects (validate_Gesture b) (mkError "name" missing)).
    { unfold validate_Gesture. rewrite H.
      do 4 apply rejects_vapp_l. apply rejects_vapp_r, required_missing. }
    destruct Hr as (es & He & Hin). exists es, "name".
    split; [done|]. change (post_gestures Store db_create_document b w)
      with (serve (POST_gestures b) w).
    by rewrite (post_gestures_invalid b es w He), validation_answer_compliant.
  - assert (Hr : rejects (validate_Gesture b) (mkError "intent" missing)).
    { unfold validate_Gesture. rewrite H.
      do 3 apply rejects_vapp_l. apply rejects_vapp_r, required_missing. }
    destruct Hr as (es & He & Hin). exists es, "intent".
    split; [done|]. change (post_gestures Store db_create_document b w)
      with (serve (POST_gestures b) w).
    by rewrite (post_gestures_invalid b es w He), validation_answer_compliant.
  - assert (Hr : rejects (validate_VoiceCommand b) (mkError "phrase" missing)).
    { unfold validate_VoiceCommand. rewrite H.
      do 4 apply rejects_vapp_l. apply rejects_vapp_r, required_missing. }
    destruct Hr as (es & He & Hin). exists es, "phrase".
    split; [done|]. change (post_voices Store db_create_document b w)
      with (serve (POST_voices b) w).
    by rewrite (post_voices_invalid b es w He), validation_answer_compliant.
  - assert (Hr : rejects (validate_VoiceCommand b) (mkError "intent" missing)).
    { unfold validate_VoiceCommand. rewrite H.
      do 3 apply rejects_vapp_l. apply rejects_vapp_r, required_missing. }
    destruct Hr as (es & He & Hin). exists es, "intent".
    split; [done|]. change (post_voices Store db_create_document b w)
      with (serve (POST_voices b) w).
    by rewrite (post_voices_invalid b es w He), validation_answer_compliant.
Qed.

(** C8: when a Gesture body validates and gives no [sensitivity], the
    normalized record has sensitivity 0.7, and that record is the one
    handed to [create_document]. *)
Theorem omitted_sensitivity_default (b : GestureBody) (g : Gesture) (w : world Store) :
  validate_Gesture b = inr g ->
  b_sensitivity b = Missing ->
  g_sensitivity g = Some f0_7
  /\ calls (serve (POST_gestures b) w).2
     = (calls w ++ [CreateDocument "gesture" (MGesture g)])%list.
Proof.
  intros Hv Hs. split.
  - unfold validate_Gesture in Hv. rewrite Hs in Hv.
    destruct (b_name b), (b_intent b), (b_app b), (b_metadata b);
      simpl in Hv; try discriminate; by inversion Hv.
  - simpl. unfold post_gestures. rewrite Hv.
    by rewrite respond_create_gesture.
Qed.

(** C9: a create request whose body validates makes one call,
    [create_document] on the lowercase class name with the normalized
    record; the answer is 200 with the returned id and [ok = true] when the
    call returns, and 500 with [str(e)] as detail when it raises [e], which
    is the message of a failure raised with a message. *)
Theorem create_calls_store_once (req : request) (cls : string) (data : model)
    (w : world Store) :
  validated_create req = Some (cls, data) ->
  serve req w =
    (match (db_create_document (lower cls) data (store w)).1 with
     | inr id => mkResponse 200 (JSON (Created id true))
     | inl e => mkResponse 500 (Detail (exn_str e))
     end,
     mkWorld (db_create_document (lower cls) data (store w)).2
             (calls w ++ [CreateDocument (lower cls) data]))
  /\ (forall message,
        (db_create_document (lower cls) data (store w)).1 = inl (Exception message) ->
        (serve req w).1 = mkResponse 500 (Detail message)).
Proof.
  intros Hv.
  assert (Heq : serve req w =
    (match (db_create_document (lower cls) data (store w)).1 with
     | inr id => mkResponse 200 (JSON (Created id true))
     | inl e => mkResponse 500 (Detail (exn_str e))
     end,
     mkWorld (db_create_document (lower cls) data (store w)).2
             (calls w ++ [CreateDocument (lower cls) data]))).
  { destruct req as [b| |b| |]; simpl in Hv; try discriminate.
    - destruct (validate_Gesture b) as [es|g] eqn:Hb; inversion Hv; subst.
      simpl. unfold post_gestures. rewrite Hb.
      apply respond_create_gesture.
    - destruct (validate_VoiceCommand b) as [es|c] eqn:Hb; inversion Hv; subst.
      simpl. unfold post_voices. rewrite Hb.
      apply respond_create_voice. }
  split; [exact Heq|].
  intros message Hm. rewrite Heq. simpl. by rewrite Hm.
Qed.


(** *** suggestions *)

(** A loop that appends [f x] for each [x] of [l] appends [f <$> l]. *)
Lemma foldl_append_each {A B} (f : A -> B) (l : list A) :
  forall acc : list B,
    foldl (fun acc x => acc ++ [f x])%list acc l = (acc ++ (f <$> l))%list.
Proof.
  induction l as [|x l IH]; intros acc; simpl.
  - by rewrite app_nil_r.
  - rewrite IH, <- app_assoc. reflexivity.
Qed.

Lemma build_dynamic_app (gs vs : list document) :
  build_dynamic repr gs vs
  = ((gesture_entry repr <$> gs) ++ (voice_entry repr <$> vs))%list.
Proof. unfold build_dynamic. by rewrite !foldl_append_each. Qed.

(** The [try] block of [suggestions], case by case. *)
Lemma fetch_recent_cases (w : world Store) :
  fetch_recent Store db_get_documents w =
    match db_get_documents "gesture" (Some 3) (store w) with
    | (inl _, s1) =>
        (inr ([], []), mkWorld s1 (calls w ++ [GetDocuments "gesture" (Some 3)]))
    | (inr gs, s1) =>
        match db_get_documents "voicecommand" (Some 3) s1 with
        | (inl _, s2) =>
            (inr ([], []),
             mkWorld s2 ((calls w ++ [GetDocuments "gesture" (Some 3)])
                         ++ [GetDocuments "voicecommand" (Some 3)]))
        | (inr vs, s2) =>
            (inr (gs, vs),
             mkWorld s2 ((calls w ++ [GetDocuments "gesture" (Some 3)])
                         ++ [GetDocuments "voicecommand" (Some 3)]))
        end
    end.
Proof.
  unfold fetch_recent, try_except, get_documents, mbind, M_bind, mret, M_ret.
  destruct (db_get_documents "gesture" (Some 3) (store w)) as [[e|gs] s1];
    [reflexivity|]; simpl.
  destruct (db_get_documents "voicecommand" (Some 3) s1) as [[e|vs] s2];
    reflexivity.
Qed.

(** The [try] block never raises. *)
Lemma fetch_recent_returns (w : world Store) :
  exists gs vs w', fetch_recent Store db_get_documents w = (inr (gs, vs), w').
Proof.
  rewrite fetch_recent_cases.
  destruct (db_get_documents "gesture" (Some 3) (store w)) as [[e|gs] s1];
    [by eexists _, _, _|].
  destruct (db_get_documents "voicecommand" (Some 3) s1) as [[e|vs] s2];
    by eexists _, _, _.
Qed.

Lemma fetch_recent_read_fails (w : world Store) :
  read_fails db_get_documents (store w) = true ->
  (fetch_recent Store db_get_documents w).1 = inr ([], []).
Proof.
  unfold read_fails. rewrite fetch_recent_cases.
  destruct (db_get_documents "gesture" (Some 3) (store w)) as [[e|gs] s1];
    [reflexivity|].
  destruct (db_get_documents "voicecommand" (Some 3) s1) as [[e|vs] s2];
    [reflexivity|discriminate].
Qed.

(** [GET /suggestions] once the two lists are known. *)
Lemma get_suggestions_fetched (w w' : world Store) (gs vs : list document) :
  fetch_recent Store db_get_documents w = (inr (gs, vs), w') ->
  serve GET_suggestions w =
    (mkResponse 200
       (JSON (Suggestions (take 6 (list_or (build_dynamic repr gs vs) base)))),
     w').
Proof.
  intros H. simpl.
  unfold get_suggestions, respond, suggestions, mbind, M_bind, mret, M_ret.
  by rewrite H.
Qed.

(** C3: when one of the two reads of [GET /suggestions] raises, both
    fetched lists are replaced by empty lists and the answer is still 200,
    with exactly the three-item [base] as its suggestions. *)
Theorem suggestions_survive_storage_failure (w : world Store) :
  read_fails db_get_documents (store w) = true ->
  (fetch_recent Store db_get_documents w).1 = inr ([], [])
  /\ (serve GET_suggestions w).1 = mkResponse 200 (JSON (Suggestions base))
  /\ length base = 3%nat.
Proof.
  intros Hfail.
  destruct (fetch_recent_returns w) as (gs & vs & w' & Hf).
  pose proof (fetch_recent_read_fails w Hfail) as He.
  rewrite Hf in He. simpl in He. inversion He; subst.
  rewrite Hf, (get_suggestions_fetched _ _ _ _ Hf). by repeat split.
Qed.


(** C5, as the code has it: the entry of the dynamic list for the [i]-th
    fetched gesture [g] has the title
    [Use '<name>' to trigger <intent>], where <name> is the text of
    [g["name"]] when the key is there (whatever it holds) and [gesture]
    when it is not, likewise <intent> with [an action]; its category is
    [g["app"]] when that is there and truthy, and ["Custom"] otherwise.
    The entry for the [j]-th voice command is the same with [Say], the keys
    ["phrase"] and ["intent"] and the defaults [command] and
    [do something]. *)
Theorem suggestion_entry_format (gs vs : list document) :
  (forall i g, gs !! i = Some g ->
     build_dynamic repr gs vs !! i =
       Some (mkSuggestion
               ("Use '" +:+ field_text repr g "name" "gesture" +:+ "' to trigger "
                +:+ field_text repr g "intent" "an action")
               (app_or_custom g)))
  /\ (forall j v, vs !! j = Some v ->
        build_dynamic repr gs vs !! (length gs + j)%nat =
          Some (mkSuggestion
                  ("Say '" +:+ field_text repr v "phrase" "command" +:+ "' to "
                   +:+ field_text repr v "intent" "do something")
                  (app_or_custom v))).
Proof.
  rewrite build_dynamic_app. split.
  - intros i g Hi.
    rewrite lookup_app_l by (rewrite length_fmap; by eapply lookup_lt_Some).
    rewrite list_lookup_fmap, Hi. simpl. f_equal.
    unfold gesture_entry, field_text, app_or_custom, get, or_.
    by destruct (g !! "name"), (g !! "intent"), (g !! "app").
  - intros j v Hj.
    rewrite lookup_app_r by (rewrite length_fmap; lia).
    rewrite length_fmap, list_lookup_fmap.
    replace (length gs + j - length gs)%nat with j by lia.
    rewrite Hj. simpl. f_equal.
    unfold voice_entry, field_text, app_or_custom, get, or_.
    by destruct (v !! "phrase"), (v !! "intent"), (v !! "app").
Qed.

(** C10: the dynamic list is the entries of the fetched gestures, in the
    order fetched, followed by the entries of the fetched voice commands,
    in the order fetched. *)
Theorem dynamic_gestures_then_voices (gs vs : list document) :
  build_dynamic repr gs vs
  = ((gesture_entry repr <$> gs) ++ (voice_entry repr <$> vs))%list.
Proof.
  unfold build_dynamic.
  rewrite (foldl_append_each (gesture_entry repr) gs []).
  rewrite (foldl_append_each (voice_entry repr) vs).
  reflexivity.
Qed.
End HandlerFacts.

(** ** The statements at concrete inputs *)

Lemma sensitivity_outside_rejected_witness :
  b_sensitivity Ex.too_sensitive = Given 1.5%float
  /\ body_compliant (POST_gestures Ex.too_sensitive) = true
  /\ exists errors,
       validate_Gesture Ex.too_sensitive = inl errors
       /\ (mkError "sensitivity" greater_than_equal ∈ errors
           \/ mkError "sensitivity" less_than_equal ∈ errors)
       /\ (Ex.run (POST_gestures Ex.too_sensitive) Ex.fresh).2 = Ex.fresh
       /\ (Ex.run (POST_gestures Ex.too_sensitive) Ex.fresh).1
          = mkResponse 422 (ValidationErrors errors).
Proof.
  split; [reflexivity|]. split; [reflexivity|].
  destruct (sensitivity_outside_rejected MemStore.t MemStore.create_document
              MemStore.get_documents MemStore.no_repr Ex.too_sensitive 1.5%float
              Ex.fresh eq_refl (or_intror eq_refl))
    as (errors & Hv & Hin & Hw & H422 & _).
  exists errors. split; [exact Hv|]. split; [exact Hin|].
  split; [exact Hw|]. exact (H422 eq_refl).
Defined.

(** C1 fails on the code for a sensitivity that is not finite: the body
    [{"name": "Wave", "intent": "mute", "sensitivity": 1e400}] is rejected
    without a storage call, but the answer is a plain 500, not a validation
    error. *)
Lemma infinite_sensitivity_server_error :
  b_sensitivity Ex2.overflow = Given infinity
  /\ PrimFloat.ltb 1 infinity = true
  /\ Ex.run (POST_gestures Ex2.overflow) Ex.fresh
     = (mkResponse 500 (PlainText "Internal Server Error"), Ex.fresh)
  /\ status (Ex.run (POST_gestures Ex2.overflow) Ex.fresh).1 <> 422.
Proof.
  split; [reflexivity|]. split; [reflexivity|]. split.
  - vm_compute. reflexivity.
  - vm_compute. discriminate.
Qed.

(** C2 fails on the code for empty text: a Gesture body whose [name] is the
    empty text, and a VoiceCommand body whose [phrase] is the empty text, pass
    validation. *)
Lemma empty_text_accepted :
  b_name Ex.empty_name = Given ""
  /\ validate_Gesture Ex.empty_name
     = inr (mkGesture "" "mute" None (Some f0_7) (Some ∅))
  /\ c_phrase Ex.empty_phrase = Given ""
  /\ validate_VoiceCommand Ex.empty_phrase
     = inr (mkVoiceCommand "" "open_notes" (Some "en") None (Some ∅))
  /\ ~ (exists errors, validate_Gesture Ex.empty_name = inl errors).
Proof.
  repeat split; try reflexivity.
  intros [errors H]. discriminate H.
Qed.

Lemma missing_required_rejected_witness :
  lacks_required (POST_gestures Ex.no_name)
  /\ body_compliant (POST_gestures Ex.no_name) = true
  /\ exists errors field,
       mkError field missing ∈ errors
       /\ Ex.run (POST_gestures Ex.no_name) Ex.fresh
          = (mkResponse 422 (ValidationErrors errors), Ex.fresh).
Proof.
  split; [left; reflexivity|]. split; [reflexivity|].
  apply (missing_required_rejected MemStore.t MemStore.create_document
           MemStore.get_documents MemStore.no_repr (POST_gestures Ex.no_name) Ex.fresh).
  - left. reflexivity.
  - reflexivity.
Defined.

Lemma suggestions_survive_storage_failure_witness :
  read_fails MemStore.get_documents (store Ex.offline) = true
  /\ (Ex.run GET_suggestions Ex.offline).1 = mkResponse 200 (JSON (Suggestions base)).
Proof.
  split; [reflexivity|].
  apply (suggestions_survive_storage_failure MemStore.t MemStore.create_document
           MemStore.get_documents MemStore.no_repr Ex.offline).
  reflexivity.
Defined.

(** C5 fails on the code for a stored gesture whose name is the empty text:
    the title keeps the empty name, where [g.name or "gesture"] gives
    [gesture]. *)
Lemma empty_name_title :
  Ex.raw_unnamed !! "name" = Some (VStr "")
  /\ title (gesture_entry MemStore.no_repr Ex.raw_unnamed) = "Use '' to trigger mute"
  /\ claimed_gesture_title MemStore.no_repr Ex.raw_unnamed
     = "Use 'gesture' to trigger mute"
  /\ title (gesture_entry MemStore.no_repr Ex.raw_unnamed)
     <> claimed_gesture_title MemStore.no_repr Ex.raw_unnamed.
Proof.
  repeat split; try reflexivity.
  vm_compute. discriminate.
Qed.


Lemma suggestion_entry_format_witness :
  build_dynamic MemStore.no_repr [Ex.raw_wave] [Ex.raw_notes] !! 0%nat
    = Some (mkSuggestion "Use 'Wave' to trigger mute" (VStr "Custom"))
  /\ build_dynamic MemStore.no_repr [Ex.raw_wave] [Ex.raw_notes] !! 1%nat
    = Some (mkSuggestion "Say 'open notes' to open_notes" (VStr "Notes")).
Proof.
  destruct (suggestion_entry_format MemStore.no_repr [Ex.raw_wave] [Ex.raw_notes])
    as [Hg Hv].
  split.
  - exact (Hg 0%nat Ex.raw_wave eq_refl).
  - exact (Hv 0%nat Ex.raw_notes eq_refl).
Defined.

Lemma omitted_sensitivity_default_witness :
  b_sensitivity Ex.wave = Missing
  /\ g_sensitivity (mkGesture "Wave" "mute" None (Some f0_7) (Some ∅)) = Some f0_7
  /\ calls (Ex.run (POST_gestures Ex.wave) Ex.fresh).2
     = [CreateDocument "gesture"
          (MGesture (mkGesture "Wave" "mute" None (Some f0_7) (Some ∅)))].
Proof.
  split; [reflexivity|].
  apply (omitted_sensitivity_default MemStore.t MemStore.create_document
           MemStore.get_documents MemStore.no_repr Ex.wave
           (mkGesture "Wave" "mute" None (Some f0_7) (Some ∅)) Ex.fresh);
    reflexivity.
Defined.

Lemma create_calls_store_once_witness :
  validated_create (POST_gestures Ex.wave)
    = Some ("Gesture", MGesture (mkGesture "Wave" "mute" None (Some f0_7) (Some ∅)))
  /\ (Ex.run (POST_gestures Ex.wave) Ex.fresh).1
     = mkResponse 200 (JSON (Created "0" true)).
Proof.
  split; [reflexivity|].
  pose proof (create_calls_store_once MemStore.t MemStore.create_document
                MemStore.get_documents MemStore.no_repr (POST_gestures Ex.wave)
                "Gesture" (MGesture (mkGesture "Wave" "mute" None (Some f0_7) (Some ∅)))
                Ex.fresh eq_refl) as [H _].
  exact (f_equal fst H).
Defined.

(** ** The in-memory store end to end *)

(** [POST /gestures {"name": "Wave", "intent": "mute"}] and then
    [GET /gestures]: the record comes back with the id returned on creation,
    [app] null, sensitivity 0.7 and empty metadata. *)
Example post_then_list :
  (Ex.run (GET_gestures Absent) (Ex.run (POST_gestures Ex.wave) Ex.fresh).2).1
  = mkResponse 200 (JSON (Documents
      [ <["id" := VStr "0"]> (
        <["name" := VStr "Wave"]> (
        <["intent" := VStr "mute"]> (
        <["app" := VNone]> (
        <["sensitivity" := VFloat f0_7]> (
        <["metadata" := VDict ∅]> ∅))))) ])).
Proof. vm_compute. reflexivity. Qed.

(** With four gestures and four voice commands stored, [GET /suggestions]
    answers six dynamic entries: the three newest gestures, then the three
    newest voice commands. *)
Example suggestions_busy :
  (Ex.run GET_suggestions Ex.busy).1
  = mkResponse 200 (JSON (Suggestions
      [ mkSuggestion "Use 'g4' to trigger do4" (VStr "Custom");
        mkSuggestion "Use 'g3' to trigger do3" (VStr "Custom");
        mkSuggestion "Use 'g2' to trigger do2" (VStr "Custom");
        mkSuggestion "Say 'say 4' to do4" (VStr "Custom");
        mkSuggestion "Say 'say 3' to do3" (VStr "Custom");
        mkSuggestion "Say 'say 2' to do2" (VStr "Custom") ])).
Proof. vm_compute. reflexivity. Qed.

(** A body without a name that holds an overflowing number under another
    key is rejected without a storage call, but the errors, which repeat the
    body, cannot be sent: the answer is a plain 500. *)
Example missing_name_with_overflow :
  lacks_required (POST_gestures Ex2.stray)
  /\ body_compliant (POST_gestures Ex2.stray) = false
  /\ Ex.run (POST_gestures Ex2.stray) Ex.fresh
     = (mkResponse 500 (PlainText "Internal Server Error"), Ex.fresh).
Proof.
  split; [left; reflexivity|]. split; vm_compute; reflexivity.
Qed.

(** A gesture created with an empty name shows up with that empty name. *)
Example suggestions_empty_name :
  (Ex.run GET_suggestions (Ex.run (POST_gestures Ex.empty_name) Ex.fresh).2).1
  = mkResponse 200 (JSON (Suggestions
      [ mkSuggestion "Use '' to trigger mute" (VStr "Custom") ])).
Proof. vm_compute. reflexivity. Qed.

(** * Further properties *)

(** ** serialize_doc on any record *)

Section SerializeMore.
Variable repr : value -> string.

(** X1: whatever the record holds, the serialized record has no ["_id"]
    key and no date/time value, and serializing it again changes nothing. *)
Theorem serialize_doc_transport_safe (doc : document) :
  serialize_doc repr doc !! "_id" = None
  /\ no_datetime (serialize_doc repr doc)
  /\ serialize_doc repr (serialize_doc repr doc) = serialize_doc repr doc.
Proof.
  split; [apply serialize_doc_no_native_id|].
  split; [|apply serialize_doc_twice].
  rewrite serialize_doc_unfold. intros k v.
  rewrite lookup_fmap. intros Hk.
  destruct (_ !! k) as [v0|]; simpl in Hk; [|discriminate].
  inversion Hk; subst. by destruct v0.
Qed.

(** X2: a field other than ["_id"] and ["id"] keeps its key; its value is
    replaced by its ISO text when it is a date/time and is kept as it is
    otherwise, dates nested in a dict or a list included. *)
Theorem serialize_doc_field (doc : document) (k : string) :
  k <> "_id" -> k <> "id" ->
  serialize_doc repr doc !! k = iso_value <$> doc !! k.
Proof.
  intros H1 H2. rewrite serialize_doc_unfold, lookup_fmap.
  destruct (doc !! "_id"); [|reflexivity].
  rewrite lookup_insert_ne by done. by rewrite lookup_delete_ne.
Qed.

(** X3: when the record has an ["_id"], the ["id"] of the result is the
    text [str] of it, whatever ["id"] the record had; when it has none, an
    ["id"] field is treated as any other field. *)
Theorem serialize_doc_id (doc : document) :
  serialize_doc repr doc !! "id" =
    match doc !! "_id" with
    | Some oid => Some (VStr (str repr oid))
    | None => iso_value <$> doc !! "id"
    end.
Proof.
  rewrite serialize_doc_unfold, lookup_fmap.
  destruct (doc !! "_id") as [oid|]; [|reflexivity].
  by rewrite lookup_insert_eq.
Qed.

(** X4: the keys of the result are those of the record, with ["_id"]
    replaced by ["id"] when it is there; the result never has more fields
    than the record. *)
Theorem serialize_doc_keys (doc : document) :
  dom (serialize_doc repr doc) =
    match doc !! "_id" with
    | Some _ => {["id"]} ∪ dom doc ∖ {["_id"]}
    | None => dom doc
    end
  /\ (size (serialize_doc repr doc) <= size doc)%nat.
Proof.
  rewrite serialize_doc_unfold, map_size_fmap, dom_fmap_L.
  destruct (doc !! "_id") as [oid|] eqn:Hid; [|by split].
  split; [by rewrite dom_insert_L, dom_delete_L|].
  rewrite map_size_insert.
  assert (Hs : size doc = S (size (delete "_id" doc))).
  { rewrite <- (insert_delete_id doc "_id" oid Hid) at 1.
    apply map_size_insert_None, lookup_delete_eq. }
  destruct (delete "_id" doc !! "id"); simpl; lia.
Qed.
End SerializeMore.

Lemma serialize_doc_field_witness :
  serialize_doc MemStore.no_repr Ex2.dated !! "created_at"
    = Some (VStr "2024-03-05T07:08:09")
  /\ serialize_doc MemStore.no_repr Ex2.dated !! "metadata"
    = Ex2.dated !! "metadata".
Proof.
  split.
  - exact (serialize_doc_field MemStore.no_repr Ex2.dated "created_at"
             ltac:(discriminate) ltac:(discriminate)).
  - exact (serialize_doc_field MemStore.no_repr Ex2.dated "metadata"
             ltac:(discriminate) ltac:(discriminate)).
Defined.

(** ** Validation of the models *)

Lemma leb_not_ltb (x y : float) :
  PrimFloat.leb x y = true -> PrimFloat.ltb y x = false.
Proof.
  intros H. destruct (PrimFloat.ltb y x) eqn:Hlt; [|reflexivity].
  apply ltb_not_leb in Hlt. congruence.
Qed.

Lemma errors_of_vapp {A B} (f : validated (A -> B)) (x : validated A) :
  errors_of (f <*> x) = (errors_of f ++ errors_of x)%list.
Proof.
  destruct f as [e1|g], x as [e2|a]; simpl; try reflexivity.
  by rewrite app_nil_r.
Qed.

Lemma reports_failure_vapp {A B} (f : validated (A -> B)) (x : validated A) :
  reports_failure f -> reports_failure x -> reports_failure (f <*> x).
Proof.
  intros Hf Hx es. destruct f as [e1|g], x as [e2|a]; simpl; intros H;
    inversion H; subst.
  - intros Happ. apply app_eq_nil in Happ as [-> _]. by apply (Hf []).
  - by apply Hf.
  - by apply Hx.
Qed.

Lemma reports_failure_inr {A} (a : A) : reports_failure (inr a).
Proof. intros es H. discriminate. Qed.

(** Each field validator reports nothing or one error on its own field,
    and never fails without an error. *)
Lemma required_errors {A} (loc : string) (x : raw A) :
  reports_failure (required loc x)
  /\ sublist (Schema.loc <$> errors_of (required loc x)) [loc].
Proof.
  split.
  - intros es. destruct x; simpl; intros H; inversion H; discriminate.
  - destruct x; simpl; repeat constructor.
Qed.

Lemma optional_errors {A} (loc : string) (dflt : option A) (x : raw A) :
  reports_failure (optional loc dflt x)
  /\ sublist (Schema.loc <$> errors_of (optional loc dflt x)) [loc].
Proof.
  split.
  - intros es. destruct x; simpl; intros H; inversion H; discriminate.
  - destruct x; simpl; repeat constructor.
Qed.

Lemma optional_bounded_errors (loc : string) dflt lo hi (x : raw float) :
  reports_failure (optional_bounded loc dflt lo hi x)
  /\ sublist (Schema.loc <$> errors_of (optional_bounded loc dflt lo hi x)) [loc].
Proof.
  split.
  - intros es. destruct x as [| | |f]; simpl; try (intros H; inversion H; discriminate).
    destruct (negb (PrimFloat.leb f hi)); [intros H; inversion H; discriminate|].
    destruct (negb (PrimFloat.leb lo f)); intros H; inversion H; discriminate.
  - destruct x as [| | |f]; simpl.
    1-3: repeat constructor.
    destruct (negb (PrimFloat.leb f hi)); [repeat constructor|].
    destruct (negb (PrimFloat.leb lo f)); repeat constructor.
Qed.

Lemma validate_Gesture_errors (b : GestureBody) :
  reports_failure (validate_Gesture b)
  /\ sublist (loc <$> errors_of (validate_Gesture b))
             ["name"; "intent"; "app"; "sensitivity"; "metadata"].
Proof.
  unfold validate_Gesture. split.
  - repeat apply reports_failure_vapp;
      first [apply reports_failure_inr | apply required_errors
            | apply optional_errors | apply optional_bounded_errors].
  - rewrite !errors_of_vapp, !fmap_app. simpl.
    change ["name"; "intent"; "app"; "sensitivity"; "metadata"]
      with ((((["name"] ++ ["intent"]) ++ ["app"]) ++ ["sensitivity"]) ++ ["metadata"])%list.
    repeat apply sublist_app;
      first [apply required_errors | apply optional_errors
            | apply optional_bounded_errors].
Qed.

Lemma validate_VoiceCommand_errors (b : VoiceCommandBody) :
  reports_failure (validate_VoiceCommand b)
  /\ sublist (loc <$> errors_of (validate_VoiceCommand b))
             ["phrase"; "intent"; "language"; "app"; "context"].
Proof.
  unfold validate_VoiceCommand. split.
  - repeat apply reports_failure_vapp;
      first [apply reports_failure_inr | apply required_errors
            | apply optional_errors].
  - rewrite !errors_of_vapp, !fmap_app. simpl.
    change ["phrase"; "intent"; "language"; "app"; "context"]
      with ((((["phrase"] ++ ["intent"]) ++ ["language"]) ++ ["app"]) ++ ["context"])%list.
    repeat apply sublist_app;
      first [apply required_errors | apply optional_errors].
Qed.

(** A successful validation, field by field. *)
Lemma validate_Gesture_inr (b : GestureBody) (g : Gesture) :
  validate_Gesture b = inr g ->
  required "name" (b_name b) = inr (g_name g)
  /\ required "intent" (b_intent b) = inr (g_intent g)
  /\ optional "app" None (b_app b) = inr (g_app g)
  /\ optional_bounded "sensitivity" (Some f0_7) 0 1 (b_sensitivity b)
     = inr (g_sensitivity g)
  /\ optional "metadata" (Some ∅) (b_metadata b) = inr (g_metadata g).
Proof.
  unfold validate_Gesture.
  destruct (required "name" (b_name b)), (required "intent" (b_intent b)),
    (optional "app" None (b_app b)),
    (optional_bounded "sensitivity" (Some f0_7) 0 1 (b_sensitivity b)),
    (optional "metadata" (Some ∅) (b_metadata b));
    simpl; intros H; inversion H; subst; simpl; by repeat split.
Qed.

Lemma validate_VoiceCommand_inr (b : VoiceCommandBody) (c : VoiceCommand) :
  validate_VoiceCommand b = inr c ->
  required "phrase" (c_phrase b) = inr (v_phrase c)
  /\ required "intent" (c_intent b) = inr (v_intent c)
  /\ optional "language" (Some "en") (c_language b) = inr (v_language c)
  /\ optional "app" None (c_app b) = inr (v_app c)
  /\ optional "context" (Some ∅) (c_context b) = inr (v_context c).
Proof.
  unfold validate_VoiceCommand.
  destruct (required "phrase" (c_phrase b)), (required "intent" (c_intent b)),
    (optional "language" (Some "en") (c_language b)),
    (optional "app" None (c_app b)),
    (optional "context" (Some ∅) (c_context b));
    simpl; intros H; inversion H; subst; simpl; by repeat split.
Qed.

Lemma required_inr {A} (loc : string) (x : raw A) (a : A) :
  required loc x = inr a -> x = Given a.
Proof. destruct x; simpl; intros H; inversion H; reflexivity. Qed.

(** X5: the sensitivity of a normalized Gesture, when it has one, is
    neither below 0.0 nor above 1.0. *)
Theorem normalized_sensitivity_in_range (b : GestureBody) (g : Gesture) (f : float) :
  validate_Gesture b = inr g ->
  g_sensitivity g = Some f ->
  PrimFloat.ltb f 0 = false /\ PrimFloat.ltb 1 f = false.
Proof.
  intros Hv Hf. apply validate_Gesture_inr in Hv as (_ & _ & _ & Hs & _).
  rewrite Hf in Hs. unfold optional_bounded in Hs.
  destruct (b_sensitivity b) as [| | |f']; try discriminate.
  - inversion Hs; subst. split; reflexivity.
  - destruct (PrimFloat.leb f' 1) eqn:Hhi; simpl in Hs; [|discriminate].
    destruct (PrimFloat.leb 0 f') eqn:Hlo; simpl in Hs; [|discriminate].
    inversion Hs; subst. split; by apply leb_not_ltb.
Qed.

(** X6: validation of a Gesture keeps a value of the declared type as it
    is given: the texts given for name and intent are those of the
    normalized record, and a text given for app, a number given for
    sensitivity or an object given for metadata is kept unchanged (nothing is
    trimmed, rounded or clamped). *)
Theorem gesture_given_fields_kept (b : GestureBody) (g : Gesture) :
  validate_Gesture b = inr g ->
  b_name b = Given (g_name g)
  /\ b_intent b = Given (g_intent g)
  /\ (forall a, b_app b = Given a -> g_app g = Some a)
  /\ (forall f, b_sensitivity b = Given f -> g_sensitivity g = Some f)
  /\ (forall m, b_metadata b = Given m -> g_metadata g = Some m).
Proof.
  intros Hv. apply validate_Gesture_inr in Hv as (Hn & Hi & Ha & Hs & Hm).
  split; [by apply (required_inr "name")|].
  split; [by apply (required_inr "intent")|].
  split; [|split].
  - intros a E. rewrite E in Ha. by inversion Ha.
  - intros f E. rewrite E in Hs. unfold optional_bounded in Hs.
    destruct (negb (PrimFloat.leb f 1)); [discriminate|].
    destruct (negb (PrimFloat.leb 0 f)); [discriminate|]. by inversion Hs.
  - intros m E. rewrite E in Hm. by inversion Hm.
Qed.

(** X7: in a Gesture body that validates, an explicit null is kept as
    [None] for app, sensitivity and metadata (the default is not put in its
    place), and an omitted app gives [None] and omitted metadata the empty
    dict. *)
Theorem gesture_null_and_defaults (b : GestureBody) (g : Gesture) :
  validate_Gesture b = inr g ->
  (b_app b = Null \/ b_app b = Missing -> g_app g = None)
  /\ (b_sensitivity b = Null -> g_sensitivity g = None)
  /\ (b_metadata b = Null -> g_metadata g = None)
  /\ (b_metadata b = Missing -> g_metadata g = Some ∅).
Proof.
  intros Hv. apply validate_Gesture_inr in Hv as (_ & _ & Ha & Hs & Hm).
  repeat split.
  - intros [E|E]; rewrite E in Ha; by inversion Ha.
  - intros E. rewrite E in Hs. by inversion Hs.
  - intros E. rewrite E in Hm. by inversion Hm.
  - intros E. rewrite E in Hm. by inversion Hm.
Qed.

(** X8: a VoiceCommand body that validates keeps its phrase and intent;
    its language is ["en"] when omitted, [None] when null and the given one
    otherwise; an omitted or null app gives [None], omitted context the empty
    dict. *)
Theorem voice_normalized (b : VoiceCommandBody) (c : VoiceCommand) :
  validate_VoiceCommand b = inr c ->
  c_phrase b = Given (v_phrase c)
  /\ c_intent b = Given (v_intent c)
  /\ v_language c = match c_language b with
                    | Given l => Some l
                    | Missing => Some "en"
                    | _ => None
                    end
  /\ (c_app b = Null \/ c_app b = Missing -> v_app c = None)
  /\ (c_context b = Missing -> v_context c = Some ∅).
Proof.
  intros Hv. apply validate_VoiceCommand_inr in Hv as (Hp & Hi & Hl & Ha & Hc).
  split; [by apply (required_inr "phrase")|].
  split; [by apply (required_inr "intent")|].
  repeat split.
  - destruct (c_language b); simpl in Hl; inversion Hl; reflexivity.
  - intros [E|E]; rewrite E in Ha; by inversion Ha.
  - intros E. rewrite E in Hc. by inversion Hc.
Qed.

(** X9: a Workflow body validates exactly when it gives a name and the
    steps and its trigger is not of a wrong type; the name and the steps are
    kept (an empty list of steps is accepted) and the trigger is [None]
    unless given. *)
Theorem workflow_accepted_iff (b : WorkflowBody) (w : Workflow) :
  validate_Workflow b = inr w
  <-> (k_name b = Given (w_name w)
       /\ k_steps b = Given (w_steps w)
       /\ (forall input, k_trigger b <> WrongType input)
       /\ w_trigger w = match k_trigger b with
                        | Given t => Some t
                        | _ => None
                        end).
Proof.
  unfold validate_Workflow. destruct w as [n s t]. simpl. split.
  - destruct (k_name b), (k_steps b), (k_trigger b); simpl; intros H;
      inversion H; subst; by repeat split.
  - intros (-> & -> & Ht & ->).
    destruct (k_trigger b) as [| |input|t']; simpl; try reflexivity.
    by destruct (Ht input).
Qed.

Lemma normalized_sensitivity_in_range_witness :
  validate_Gesture Ex2.full = inr Ex2.full_gesture
  /\ PrimFloat.ltb 0.5 0 = false /\ PrimFloat.ltb 1 0.5 = false.
Proof.
  split; [reflexivity|].
  apply (normalized_sensitivity_in_range Ex2.full Ex2.full_gesture 0.5%float);
    reflexivity.
Defined.

Lemma gesture_given_fields_kept_witness :
  validate_Gesture Ex2.full = inr Ex2.full_gesture
  /\ g_app Ex2.full_gesture = Some "Slides"
  /\ g_sensitivity Ex2.full_gesture = Some 0.5%float.
Proof.
  split; [reflexivity|].
  destruct (gesture_given_fields_kept Ex2.full Ex2.full_gesture eq_refl)
    as (_ & _ & Ha & Hs & _).
  split; [exact (Ha "Slides" eq_refl)|exact (Hs 0.5%float eq_refl)].
Defined.

Lemma gesture_null_and_defaults_witness :
  b_metadata Ex2.full = Null
  /\ b_app Ex.wave = Missing
  /\ g_metadata Ex2.full_gesture = None
  /\ g_app (mkGesture "Wave" "mute" None (Some f0_7) (Some ∅)) = None.
Proof.
  split; [reflexivity|]. split; [reflexivity|]. split.
  - destruct (gesture_null_and_defaults Ex2.full Ex2.full_gesture eq_refl)
      as (_ & _ & Hm & _).
    exact (Hm eq_refl).
  - destruct (gesture_null_and_defaults Ex.wave
                (mkGesture "Wave" "mute" None (Some f0_7) (Some ∅)) eq_refl)
      as (Ha & _).
    exact (Ha (or_intror eq_refl)).
Defined.

Lemma voice_normalized_witness :
  validate_VoiceCommand Ex2.notes = inr Ex2.notes_command
  /\ v_language Ex2.notes_command = Some "en"
  /\ v_app Ex2.notes_command = None.
Proof.
  split; [reflexivity|].
  destruct (voice_normalized Ex2.notes Ex2.notes_command eq_refl)
    as (_ & _ & Hl & Ha & _).
  split; [exact Hl|exact (Ha (or_introl eq_refl))].
Defined.

Lemma workflow_accepted_iff_witness :
  validate_Workflow Ex2.morning = inr (mkWorkflow "morning" [] None).
Proof.
  apply (proj2 (workflow_accepted_iff Ex2.morning (mkWorkflow "morning" [] None))).
  repeat split. discriminate.
Defined.

(** ** The handlers on any store *)

Section HandlerMore.
Variable Store : Type.
Variable db_create_document : string -> model -> Store -> (exn + string) * Store.
Variable db_get_documents :
  string -> option Z -> Store -> (exn + list document) * Store.
Variable repr : value -> string.

#[local] Abbreviation serve := (app Store db_create_document db_get_documents repr).

(** What [list_gestures] and [list_voices] do, in one equation. *)
Lemma respond_list_gestures (limit : option Z) (w : world Store) :
  respond Store (list_gestures Store db_get_documents repr limit) w =
    (match (db_get_documents "gesture" limit (store w)).1 with
     | inr docs => mkResponse 200 (JSON (Documents (serialize_doc repr <$> docs)))
     | inl e => mkResponse 500 (Detail (exn_str e))
     end,
     mkWorld (db_get_documents "gesture" limit (store w)).2
             (calls w ++ [GetDocuments "gesture" limit])).
Proof.
  unfold respond, list_gestures, try_except, get_documents, raise,
    mbind, M_bind, mret, M_ret.
  destruct (db_get_documents "gesture" limit (store w)) as [[e|docs] s];
    reflexivity.
Qed.

Lemma respond_list_voices (limit : option Z) (w : world Store) :
  respond Store (list_voices Store db_get_documents repr limit) w =
    (match (db_get_documents "voicecommand" limit (store w)).1 with
     | inr docs => mkResponse 200 (JSON (Documents (serialize_doc repr <$> docs)))
     | inl e => mkResponse 500 (Detail (exn_str e))
     end,
     mkWorld (db_get_documents "voicecommand" limit (store w)).2
             (calls w ++ [GetDocuments "voicecommand" limit])).
Proof.
  unfold respond, list_voices, try_except, get_documents, raise,
    mbind, M_bind, mret, M_ret.
  destruct (db_get_documents "voicecommand" limit (store w)) as [[e|docs] s];
    reflexivity.
Qed.

(** A create request, in one equation. *)
Lemma serve_post_gestures (b : GestureBody) (w : world Store) :
  serve (POST_gestures b) w =
    match validate_Gesture b with
    | inl errors => (validation_answer (gesture_json b) errors, w)
    | inr g =>
        (match (db_create_document "gesture" (MGesture g) (store w)).1 with
         | inr id => mkResponse 200 (JSON (Created id true))
         | inl e => mkResponse 500 (Detail (exn_str e))
         end,
         mkWorld (db_create_document "gesture" (MGesture g) (store w)).2
                 (calls w ++ [CreateDocument "gesture" (MGesture g)]))
    end.
Proof.
  simpl. unfold post_gestures. destruct (validate_Gesture b); [reflexivity|].
  apply respond_create_gesture.
Qed.

Lemma serve_post_voices (b : VoiceCommandBody) (w : world Store) :
  serve (POST_voices b) w =
    match validate_VoiceCommand b with
    | inl errors => (validation_answer (voice_json b) errors, w)
    | inr c =>
        (match (db_create_document "voicecommand" (MVoiceCommand c) (store w)).1 with
         | inr id => mkResponse 200 (JSON (Created id true))
         | inl e => mkResponse 500 (Detail (exn_str e))
         end,
         mkWorld (db_create_document "voicecommand" (MVoiceCommand c) (store w)).2
                 (calls w ++ [CreateDocument "voicecommand" (MVoiceCommand c)]))
    end.
Proof.
  simpl. unfold post_voices. destruct (validate_VoiceCommand b); [reflexivity|].
  apply respond_create_voice.
Qed.

(** [GET /suggestions], in one equation. *)
Lemma serve_suggestions (w : world Store) :
  exists gs vs w',
    fetch_recent Store db_get_documents w = (inr (gs, vs), w')
    /\ serve GET_suggestions w =
         (mkResponse 200
            (JSON (Suggestions (take 6 (list_or (build_dynamic repr gs vs) base)))),
          w').
Proof.
  destruct (fetch_recent_returns Store db_get_documents w) as (gs & vs & w' & Hf).
  exists gs, vs, w'. split; [exact Hf|].
  by apply get_suggestions_fetched.
Qed.

(** A list request whose limit is absent or an integer, in one equation. *)
Lemma serve_list (req : request) (coll : string) (n : Z) (w : world Store) :
  listed req = Some (coll, n) ->
  serve req w =
    (match (db_get_documents coll (Some n) (store w)).1 with
     | inr docs =>
         if forallb (fun d => json_compliant (VDict d)) (serialize_doc repr <$> docs)
         then mkResponse 200 (JSON (Documents (serialize_doc repr <$> docs)))
         else internal_server_error
     | inl e => mkResponse 500 (Detail (exn_str e))
     end,
     mkWorld (db_get_documents coll (Some n) (store w)).2
             (calls w ++ [GetDocuments coll (Some n)])).
Proof.
  destruct req as [b|[|m|t]|b|[|m|t]|]; simpl; intros H; inversion H; subst;
    unfold get_gestures, get_voices;
    rewrite ?respond_list_gestures, ?respond_list_voices;
    unfold send_encoded; simpl;
    (destruct (db_get_documents _ _ (store w)).1 as [e|docs]; simpl;
     [reflexivity|]);
    destruct (forallb _ _); reflexivity.
Qed.

(** A list request whose limit does not read as an integer. *)
Lemma serve_list_unparsable (req : request) (w : world Store) :
  is_create req = false -> req <> GET_suggestions -> listed req = None ->
  serve req w = (mkResponse 422 (ValidationErrors [mkError "limit" wrong_type]), w).
Proof.
  destruct req as [b|[|m|t]|b|[|m|t]|]; simpl; try discriminate; try congruence;
    reflexivity.
Qed.

(** X10: a list request whose limit is absent or an integer makes one
    call, [get_documents] on ["gesture"] or ["voicecommand"] with that limit,
    20 when the query gives none.  When the call returns, the records are
    serialized in the order returned and the answer is 200 with them, or a
    plain 500 when a serialized record holds a value that cannot be sent as
    JSON (a float that is not finite, an ObjectId left inside a dict or a
    list); when the call raises [e], the answer is 500 with [str(e)] as
    detail. *)
Theorem list_reads_store_once (req : request) (coll : string) (n : Z)
    (w : world Store) :
  listed req = Some (coll, n) ->
  serve req w =
    (match (db_get_documents coll (Some n) (store w)).1 with
     | inr docs =>
         if forallb (fun d => json_compliant (VDict d)) (serialize_doc repr <$> docs)
         then mkResponse 200 (JSON (Documents (serialize_doc repr <$> docs)))
         else mkResponse 500 (PlainText "Internal Server Error")
     | inl e => mkResponse 500 (Detail (exn_str e))
     end,
     mkWorld (db_get_documents coll (Some n) (store w)).2
             (calls w ++ [GetDocuments coll (Some n)])).
Proof. intros Hl. by rewrite (serve_list req coll n w Hl). Qed.

(** X11: every record in a 200 answer to a list request is without
    ["_id"] and without date/time value, and there are as many records as
    the store returned. *)
Theorem listed_documents_transport_safe (req : request) (coll : string) (n : Z)
    (w : world Store) (docs : list document) :
  listed req = Some (coll, n) ->
  payload (serve req w).1 = JSON (Documents docs) ->
  Forall (fun d => d !! "_id" = None /\ no_datetime d) docs
  /\ exists raw,
       (db_get_documents coll (Some n) (store w)).1 = inr raw
       /\ length docs = length raw.
Proof.
  intros Hl Hp. rewrite (serve_list req coll n w Hl) in Hp. simpl in Hp.
  destruct (db_get_documents coll (Some n) (store w)).1 as [e|raw];
    simpl in Hp; [discriminate|].
  destruct (forallb _ _); simpl in Hp; [|discriminate].
  inversion Hp; subst. split.
  - apply Forall_fmap, Forall_forall. intros d _. simpl. split.
    + apply serialize_doc_no_native_id.
    + rewrite serialize_doc_unfold. intros k v. rewrite lookup_fmap. intros Hk.
      destruct (_ !! k) as [v0|]; simpl in Hk; [|discriminate].
      inversion Hk; subst. by destruct v0.
  - exists raw. split; [reflexivity|]. by rewrite length_fmap.
Qed.

(** X12: a create request whose body does not validate, its sensitivity
    being a number, null or absent, leaves the world unchanged; the errors
    are at least one, at most one per declared field, in the order the model
    declares the fields, and the answer is 422 with them when the body holds
    no number that JSON cannot carry. *)
Theorem invalid_body_rejected (req : request) (w : world Store) :
  is_create req = true ->
  validated_create req = None ->
  sensitivity_typed req ->
  exists errors,
    errors <> []
    /\ sublist (loc <$> errors) (declared_fields req)
    /\ (serve req w).2 = w
    /\ (body_compliant req = true ->
        (serve req w).1 = mkResponse 422 (ValidationErrors errors)).
Proof.
  destruct req as [b| |b| |]; simpl; try discriminate; intros _ Hv _.
  - change (post_gestures Store db_create_document b w)
      with (serve (POST_gestures b) w).
    rewrite serve_post_gestures.
    destruct (validate_Gesture_errors b) as [Hne Hsub].
    destruct (validate_Gesture b) as [errors|g]; [|discriminate].
    exists errors. split; [by apply Hne|]. split; [exact Hsub|].
    split; [reflexivity|]. intros Hc. simpl.
    by apply validation_answer_compliant.
  - change (post_voices Store db_create_document b w)
      with (serve (POST_voices b) w).
    rewrite serve_post_voices.
    destruct (validate_VoiceCommand_errors b) as [Hne Hsub].
    destruct (validate_VoiceCommand b) as [errors|c]; [|discriminate].
    exists errors. split; [by apply Hne|]. split; [exact Hsub|].
    split; [reflexivity|]. intros Hc. simpl.
    by apply validation_answer_compliant.
Qed.

(** X13: a request only appends to the call log, at most two calls; a
    create request makes at most one call and never reads, a list or
    suggestions request never writes, and a request answered with 422 made
    no call and left the store as it was. *)
Theorem store_call_discipline (req : request) (w : world Store) :
  exists new,
    calls (serve req w).2 = (calls w ++ new)%list
    /\ (length new <= 2)%nat
    /\ (if is_create req
        then (length new <= 1)%nat /\ forallb is_write_call new = true
        else forallb is_read_call new = true)
    /\ (status (serve req w).1 = 422 -> (serve req w).2 = w).
Proof.
  destruct req as [b|limit|b|limit|].
  - rewrite serve_post_gestures. destruct (validate_Gesture b) as [es|g].
    + exists []. simpl. rewrite app_nil_r. repeat split; lia.
    + eexists [_]. simpl. repeat split; try lia.
      destruct (db_create_document "gesture" (MGesture g) (store w)).1;
        discriminate.
  - destruct (listed (GET_gestures limit)) as [[coll n]|] eqn:Hl.
    + rewrite (serve_list _ coll n w Hl). eexists [_]. simpl.
      repeat split; try lia.
      destruct (db_get_documents coll (Some n) (store w)).1; simpl;
        [discriminate|]. destruct (forallb _ _); discriminate.
    + rewrite serve_list_unparsable by (done || by destruct limit).
      exists []. simpl. rewrite app_nil_r. repeat split; lia.
  - rewrite serve_post_voices. destruct (validate_VoiceCommand b) as [es|c].
    + exists []. simpl. rewrite app_nil_r. repeat split; lia.
    + eexists [_]. simpl. repeat split; try lia.
      destruct (db_create_document "voicecommand" (MVoiceCommand c) (store w)).1;
        discriminate.
  - destruct (listed (GET_voices limit)) as [[coll n]|] eqn:Hl.
    + rewrite (serve_list _ coll n w Hl). eexists [_]. simpl.
      repeat split; try lia.
      destruct (db_get_documents coll (Some n) (store w)).1; simpl;
        [discriminate|]. destruct (forallb _ _); discriminate.
    + rewrite serve_list_unparsable by (done || by destruct limit).
      exists []. simpl. rewrite app_nil_r. repeat split; lia.
  - destruct (serve_suggestions w) as (gs & vs & w' & Hf & ->). simpl.
    rewrite fetch_recent_cases in Hf.
    destruct (db_get_documents "gesture" (Some 3) (store w)) as [[e|gs'] s1].
    + inversion Hf; subst. eexists [_]. simpl. by repeat split; try lia.
    + destruct (db_get_documents "voicecommand" (Some 3) s1) as [[e|vs'] s2];
        inversion Hf; subst; eexists [_; _]; simpl; rewrite <- app_assoc;
        by repeat split; try lia.
Qed.






(** X17: [GET /suggestions] reads the gestures first and the voice
    commands only when that read returned: after a failed first read the log
    has one more call, otherwise two, and the store is the one left by the
    last read made. *)
Theorem suggestions_reads (w : world Store) :
  (serve GET_suggestions w).2 =
    match db_get_documents "gesture" (Some 3) (store w) with
    | (inl _, s1) => mkWorld s1 (calls w ++ [GetDocuments "gesture" (Some 3)])
    | (inr _, s1) =>
        mkWorld (db_get_documents "voicecommand" (Some 3) s1).2
                (calls w ++ [GetDocuments "gesture" (Some 3);
                             GetDocuments "voicecommand" (Some 3)])
    end.
Proof.
  destruct (serve_suggestions w) as (gs & vs & w' & Hf & ->). simpl.
  rewrite fetch_recent_cases in Hf.
  destruct (db_get_documents "gesture" (Some 3) (store w)) as [[e|gs'] s1].
  - by inversion Hf.
  - destruct (db_get_documents "voicecommand" (Some 3) s1) as [[e|vs'] s2];
      inversion Hf; subst; simpl; by rewrite <- app_assoc.
Qed.
End HandlerMore.

Lemma list_reads_store_once_witness :
  listed (GET_gestures Absent) = Some ("gesture", 20)
  /\ (Ex.run (POST_gestures Ex2.loud) Ex.fresh).1
     = mkResponse 200 (JSON (Created "0" true))
  /\ Ex.run (GET_gestures Absent) Ex2.noisy
     = (mkResponse 500 (PlainText "Internal Server Error"),
        mkWorld (store Ex2.noisy)
                (calls Ex2.noisy ++ [GetDocuments "gesture" (Some 20)])).
Proof.
  split; [reflexivity|]. split; [vm_compute; reflexivity|].
  refine (eq_trans
            (list_reads_store_once MemStore.t MemStore.create_document
               MemStore.get_documents MemStore.no_repr (GET_gestures Absent)
               "gesture" 20 Ex2.noisy eq_refl) _).
  vm_compute. reflexivity.
Defined.

Lemma listed_documents_transport_safe_witness :
  listed (GET_voices (Parsed 5)) = Some ("voicecommand", 5)
  /\ Forall (fun d : document => d !! "_id" = None /\ no_datetime d)
       (match payload (Ex.run (GET_voices (Parsed 5)) Ex2.small).1 with
        | JSON (Documents docs) => docs
        | _ => []
        end).
Proof.
  split; [reflexivity|].
  refine (proj1 (listed_documents_transport_safe MemStore.t MemStore.create_document
                   MemStore.get_documents MemStore.no_repr (GET_voices (Parsed 5))
                   "voicecommand" 5 Ex2.small _ eq_refl _)).
  vm_compute. reflexivity.
Defined.

Lemma invalid_body_rejected_witness :
  is_create (POST_gestures Ex2.broken) = true
  /\ validated_create (POST_gestures Ex2.broken) = None
  /\ sensitivity_typed (POST_gestures Ex2.broken)
  /\ body_compliant (POST_gestures Ex2.broken) = true
  /\ exists errors,
       errors <> []
       /\ sublist (loc <$> errors) ["name"; "intent"; "app"; "sensitivity"; "metadata"]
       /\ (Ex.run (POST_gestures Ex2.broken) Ex.fresh).2 = Ex.fresh
       /\ (Ex.run (POST_gestures Ex2.broken) Ex.fresh).1
          = mkResponse 422 (ValidationErrors errors).
Proof.
  split; [reflexivity|]. split; [reflexivity|].
  split; [intros input; discriminate|]. split; [reflexivity|].
  destruct (invalid_body_rejected MemStore.t MemStore.create_document
              MemStore.get_documents MemStore.no_repr (POST_gestures Ex2.broken)
              Ex.fresh eq_refl eq_refl ltac:(intros input; discriminate))
    as (errors & Hne & Hsub & Hw & H422).
  exists errors. split; [exact Hne|]. split; [exact Hsub|].
  split; [exact Hw|]. exact (H422 eq_refl).
Defined.

Lemma store_call_discipline_witness :
  status (Ex.run (GET_gestures (Unparsable "abc")) Ex.fresh).1 = 422
  /\ (Ex.run (GET_gestures (Unparsable "abc")) Ex.fresh).2 = Ex.fresh.
Proof.
  split; [reflexivity|].
  destruct (store_call_discipline MemStore.t MemStore.create_document
              MemStore.get_documents MemStore.no_repr
              (GET_gestures (Unparsable "abc")) Ex.fresh)
    as (new & _ & _ & _ & H422).
  exact (H422 eq_refl).
Defined.



(** ** The diagnostic endpoint *)

(** The cut keeps whole characters: what is left out is empty or starts
    with the lead byte of a character. *)
Lemma prefix_split (s : string) :
  forall n, exists rest,
    s = Diagnostics.prefix n s +:+ rest
    /\ (rest = ""
        \/ exists c r, rest = String c r /\ Diagnostics.continuation c = false).
Proof.
  induction s as [|c s IH]; intros n; simpl.
  - exists "". by split; [|left].
  - destruct (Diagnostics.continuation c) eqn:Hc.
    + destruct (IH n) as (rest & Hr & Hb). exists rest. split; [|exact Hb].
      change (String c s = String c (Diagnostics.prefix n s +:+ rest)).
      by f_equal.
    + destruct n as [|n].
      * exists (String c s). split; [reflexivity|]. right. by exists c, s.
      * destruct (IH n) as (rest & Hr & Hb). exists rest. split; [|exact Hb].
        change (String c s = String c (Diagnostics.prefix n s +:+ rest)).
        by f_equal.
Qed.

(** The cut has [n] characters, or all of them when there are fewer. *)
Lemma prefix_chars (s : string) :
  forall n,
    Diagnostics.chars (Diagnostics.prefix n s) = Nat.min n (Diagnostics.chars s).
Proof.
  induction s as [|c s IH]; intros n; simpl.
  - by rewrite Nat.min_0_r.
  - destruct (Diagnostics.continuation c) eqn:Hc; simpl.
    + rewrite Hc. apply IH.
    + destruct n as [|n]; simpl; [reflexivity|]. rewrite Hc, IH. reflexivity.
Qed.

Lemma prefix_short (s : string) :
  forall n, (Diagnostics.chars s <= n)%nat -> Diagnostics.prefix n s = s.
Proof.
  induction s as [|c s IH]; intros n; simpl; [reflexivity|].
  destruct (Diagnostics.continuation c); intros H.
  - f_equal. by apply IH.
  - destruct n as [|n]; [lia|]. f_equal. apply IH. lia.
Qed.

Section DiagnosticsFacts.
Import Diagnostics.
Variable import_db : import_outcome.
Variable DATABASE_URL : option string.

(** X18: whatever the import does, the report says the backend is running
    and lists at most ten collections; it says [Connected] exactly when the
    import gave a [db] that is not [None], and it gives no database URL, no
    database name and no collection otherwise. *)
Theorem test_database_connection :
  backend (test_database import_db DATABASE_URL) = "✅ Running"
  /\ (length (collections (test_database import_db DATABASE_URL)) <= 10)%nat
  /\ (connection_status (test_database import_db DATABASE_URL) = "Connected"
      <-> exists db, import_db = Imported (Some db))
  /\ (connection_status (test_database import_db DATABASE_URL) <> "Connected" ->
      connection_status (test_database import_db DATABASE_URL) = "Not Connected"
      /\ database_url (test_database import_db DATABASE_URL) = None
      /\ database_name (test_database import_db DATABASE_URL) = None
      /\ collections (test_database import_db DATABASE_URL) = []).
Proof.
  unfold test_database.
  destruct import_db as [|e|[db|]]; simpl.
  - repeat split; try lia; try discriminate. intros [db H]; discriminate.
  - repeat split; try lia; try discriminate. intros [db H]; discriminate.
  - destruct (list_collection_names db) as [e|names]; simpl.
    + repeat split; try lia; try (intros; tauto); eauto.
    + repeat split; try (rewrite length_take; lia); try (intros; tauto); eauto.
  - repeat split; try lia; try discriminate. intros [db H]; discriminate.
Qed.

(** X19: the report says [Connected & Working] exactly when the import
    gave a [db] whose listing returned, and the collections reported are
    then the first ten names of the listing. *)
Theorem test_database_working :
  (database (test_database import_db DATABASE_URL) = "✅ Connected & Working"
   <-> exists db names,
         import_db = Imported (Some db) /\ list_collection_names db = inr names)
  /\ (forall db names,
        import_db = Imported (Some db) -> list_collection_names db = inr names ->
        collections (test_database import_db DATABASE_URL) = take 10 names).
Proof.
  unfold test_database. split.
  - destruct import_db as [|e|[db|]]; simpl.
    + split; [discriminate|]. intros (db & names & H & _); discriminate.
    + split; [discriminate|]. intros (db & names & H & _); discriminate.
    + destruct (list_collection_names db) as [e|names] eqn:Hl; simpl.
      * split; [discriminate|]. intros (db' & names & H & Hn).
        inversion H; subst. congruence.
      * split; [eauto|reflexivity].
    + split; [discriminate|]. intros (db & names & H & _); discriminate.
  - intros db names -> Hl. simpl. by rewrite Hl.
Qed.

(** X20: when the import or the listing raises an exception with text
    [e], the report shows a fixed lead followed by the first 80 characters of
    [e] (the cut has 80 characters, or all of [e] when it has no more, and
    what it leaves out starts at a character), and lists no collection; a
    listing failure still reports [Connected]. *)
Theorem test_database_error_cut (e : string) :
  (import_db = ImportException e ->
   database (test_database import_db DATABASE_URL) = "❌ Error: " +:+ prefix 80 e
   /\ collections (test_database import_db DATABASE_URL) = [])
  /\ (forall db, import_db = Imported (Some db) -> list_collection_names db = inl e ->
      database (test_database import_db DATABASE_URL)
        = "⚠️  Connected but Error: " +:+ prefix 80 e
      /\ collections (test_database import_db DATABASE_URL) = []
      /\ connection_status (test_database import_db DATABASE_URL) = "Connected")
  /\ chars (prefix 80 e) = Nat.min 80 (chars e)
  /\ (exists rest,
        e = prefix 80 e +:+ rest
        /\ (rest = "" \/ exists c r, rest = String c r /\ continuation c = false))
  /\ ((chars e <= 80)%nat -> prefix 80 e = e).
Proof.
  split; [|split; [|split; [|split]]].
  - intros ->. by split.
  - intros db -> Hl. unfold test_database. rewrite Hl. by repeat split.
  - apply prefix_chars.
  - apply prefix_split.
  - apply prefix_short.
Qed.
End DiagnosticsFacts.

Lemma test_database_connection_witness :
  Diagnostics.connection_status
    (Diagnostics.test_database (Diagnostics.Imported (Some Ex2.crowded)) None)
  = "Connected".
Proof.
  apply (proj2 (proj1 (proj2 (proj2
    (test_database_connection (Diagnostics.Imported (Some Ex2.crowded)) None))))).
  by exists Ex2.crowded.
Defined.

Lemma test_database_working_witness :
  Diagnostics.collections
    (Diagnostics.test_database (Diagnostics.Imported (Some Ex2.crowded)) (Some "mongodb://db"))
  = ["a"; "b"; "c"; "d"; "e"; "f"; "g"; "h"; "i"; "j"].
Proof.
  exact (proj2 (test_database_working (Diagnostics.Imported (Some Ex2.crowded))
                  (Some "mongodb://db"))
           Ex2.crowded _ eq_refl eq_refl).
Defined.

Lemma test_database_error_cut_witness :
  Diagnostics.database
    (Diagnostics.test_database (Diagnostics.Imported (Some Ex2.wordy)) None)
  = "⚠️  Connected but Error: " +:+ String.concat "" (replicate 80 "é").
Proof.
  refine (eq_trans
            (proj1 (proj1 (proj2
               (test_database_error_cut (Diagnostics.Imported (Some Ex2.wordy)) None
                  (String.concat "" (replicate 100 "é"))))
               Ex2.wordy eq_refl eq_refl)) _).
  vm_compute. reflexivity.
Defined.

(** ** PyObjectId *)

(** X21: [PyObjectId.validate] returns an ObjectId it is given unchanged;
    for any other value [v] it returns the ObjectId built by
    [ObjectId(str(v))], and raises an error, with the text [Invalid ObjectId],
    exactly when that fails; so what it returns is always an ObjectId, and
    validating it again gives it back. *)
Theorem PyObjectId_validate_cases
    (ObjectId_of_str : string -> option string) (repr : value -> string) :
  (forall hex,
     PyObjectId_validate ObjectId_of_str repr (VObjectId hex) = inr (VObjectId hex))
  /\ (forall v, (forall hex, v <> VObjectId hex) ->
       PyObjectId_validate ObjectId_of_str repr v =
         match ObjectId_of_str (str repr v) with
         | Some hex => inr (VObjectId hex)
         | None => inl "Invalid ObjectId"
         end)
  /\ (forall v message,
       PyObjectId_validate ObjectId_of_str repr v = inl message ->
       message = "Invalid ObjectId" /\ ObjectId_of_str (str repr v) = None)
  /\ (forall v oid,
       PyObjectId_validate ObjectId_of_str repr v = inr oid ->
       (exists hex, oid = VObjectId hex)
       /\ PyObjectId_validate ObjectId_of_str repr oid = inr oid).
Proof.
  split; [reflexivity|]. split; [|split].
  - intros v Hv. destruct v; try reflexivity. by destruct (Hv hex).
  - intros v message. destruct v; simpl; try discriminate;
      destruct (ObjectId_of_str _) eqn:Ho; simpl; intros H; inversion H; by split.
  - intros v oid. destruct v; simpl;
      try (destruct (ObjectId_of_str _) eqn:Ho; simpl);
      intros H; inversion H; subst; eauto.
Qed.

Lemma PyObjectId_validate_cases_witness :
  PyObjectId_validate Ex2.oid24 MemStore.no_repr (VStr "65f1c0ffee65f1c0ffee65f1")
    = inr (VObjectId "65f1c0ffee65f1c0ffee65f1")
  /\ PyObjectId_validate Ex2.oid24 MemStore.no_repr (VInt 7) = inl "Invalid ObjectId".
Proof.
  destruct (PyObjectId_validate_cases Ex2.oid24 MemStore.no_repr) as (_ & H & _).
  split.
  - exact (H (VStr "65f1c0ffee65f1c0ffee65f1") ltac:(intros hex; discriminate)).
  - exact (H (VInt 7) ltac:(intros hex; discriminate)).
Defined.
